(** * Configuration: the simulator's configuration accessor

    A shallow embedding of [Configuration] (the static class of
    [Configuration.ts]) and of the JavaScript operations it relies on.

    The parsed configuration file is dynamic data: a JSON object whose
    members are arbitrary JSON values.  The accessors read it with property
    lookups, optional chaining, object spread and [just-merge], write to it
    (legacy key aliasing) and write to the console; the class keeps three
    static fields.  All of that is modelled with explicit values, an
    explicit store and a small state-and-exception monad. *)

From Stdlib Require Import ZArith List String Ascii Bool Lia.
Import ListNotations.
Local Open Scope string_scope.
Set Warnings "-register-all".

(* ===================================================================== *)
(** ** JavaScript values *)
(* ===================================================================== *)

(** Values as [JSON.parse] produces them, plus [undefined] and [NaN], which
    the accessors themselves can produce.  The numbers are the
    integer-valued ones, which is what [parseInt] returns: an integer
    ([VNum 0] is [+0]), [-0], an infinity, or [NaN]; fractional numbers are
    outside the model.  A string is the UTF-8 text of the JavaScript
    string, as the configuration file holds it.  An array carries its items
    and, as every JavaScript array may, named (non-index) properties:
    [JSON.parse] leaves that list empty. *)
Inductive value : Type :=
| VUndefined
| VNull
| VBool (b : bool)
| VNum (n : Z)
| VNegZero
| VInfinity (negative : bool)
| VNaN
| VStr (s : string)
| VArr (items : list value) (named : list (string * value))
| VObj (members : list (string * value)).

(** Own properties of an object, in insertion order. *)
Definition props : Type := list (string * value).

(** What a [throw] carries.  [JsError] is an [Error] object (or a subclass,
    named by [errorName]); [Raw] is any other thrown value, for instance the
    string a promise was rejected with. *)
Inductive exn : Type :=
| JsError (errorName : string) (message : string)
| Raw (v : value).

Definition TypeError (message : string) : exn := JsError "TypeError" message.
Definition Error (message : string) : exn := JsError "Error" message.

(** Outcome of evaluating an expression. *)
Inductive result (A : Type) : Type :=
| Ok (a : A)
| Throw (e : exn).
Arguments Ok {A} a.
Arguments Throw {A} e.

Definition is_ok {A} (r : result A) : bool :=
  match r with Ok _ => true | Throw _ => false end.

(* --------------------------------------------------------------------- *)
(** *** Property lists *)

Fixpoint assoc_get (k : string) (o : props) : option value :=
  match o with
  | [] => None
  | (k', v) :: rest => if String.eqb k k' then Some v else assoc_get k rest
  end.

(** [o[k] = v]: an existing property keeps its position, a new one is added
    at the end. *)
Fixpoint assoc_set (k : string) (v : value) (o : props) : props :=
  match o with
  | [] => [(k, v)]
  | (k', v') :: rest =>
      if String.eqb k k' then (k, v) :: rest else (k', v') :: assoc_set k v rest
  end.

(** [delete o[k]]. *)
Fixpoint assoc_del (k : string) (o : props) : props :=
  match o with
  | [] => []
  | (k', v') :: rest =>
      if String.eqb k k' then assoc_del k rest else (k', v') :: assoc_del k rest
  end.

(* --------------------------------------------------------------------- *)
(** *** Array indices as property keys *)

Definition digit_of_ascii (c : ascii) : option nat :=
  let n := nat_of_ascii c in
  if andb (48 <=? n)%nat (n <=? 57)%nat then Some (n - 48)%nat else None.

Fixpoint digits_value (acc : nat) (s : string) : option nat :=
  match s with
  | EmptyString => Some acc
  | String c rest =>
      match digit_of_ascii c with
      | Some d => digits_value (10 * acc + d) rest
      | None => None
      end
  end.

(** A key is an array index when it is the canonical decimal numeral of a
    natural number: ["0"], ["17"], but not [""], ["01"] or ["x"]. *)
Definition index_of_key (k : string) : option nat :=
  match k with
  | EmptyString => None
  | String "0" EmptyString => Some 0%nat
  | String "0" _ => None
  | _ => digits_value 0 k
  end.

Definition ascii_of_digit (d : nat) : ascii := ascii_of_nat (48 + d).

Fixpoint key_of_index_aux (fuel n : nat) (acc : string) : string :=
  match fuel with
  | O => acc
  | S fuel' =>
      let acc' := String (ascii_of_digit (n mod 10)) acc in
      if (n <? 10)%nat then acc' else key_of_index_aux fuel' (n / 10) acc'
  end.

(** The decimal numeral of [n], the key under which item [n] is stored. *)
Definition key_of_index (n : nat) : string := key_of_index_aux (S n) n "".

Fixpoint indexed_from {A} (i : nat) (l : list A) : list (string * A) :=
  match l with
  | [] => []
  | x :: rest => (key_of_index i, x) :: indexed_from (S i) rest
  end.

(* --------------------------------------------------------------------- *)
(** *** Strings by code unit *)

(** A JavaScript string is a sequence of UTF-16 code units, and its
    [length] and its index keys count those.  In UTF-8 a character of up
    to three bytes is one code unit, and a character of four bytes is two,
    the surrogates of its pair; a surrogate on its own is written in the
    three-byte form. *)
Definition unit3 (u : N) : string :=
  String (ascii_of_N (224 + u / 4096))
    (String (ascii_of_N (128 + (u / 64) mod 64))
       (String (ascii_of_N (128 + u mod 64)) EmptyString)).

Fixpoint code_units (s : string) : list string :=
  match s with
  | EmptyString => []
  | String a rest =>
      let n := N_of_ascii a in
      if (n <? 192)%N then String a EmptyString :: code_units rest
      else
        match rest with
        | EmptyString => [s]
        | String b rest2 =>
            if (n <? 224)%N then String a (String b EmptyString) :: code_units rest2
            else
              match rest2 with
              | EmptyString => [s]
              | String c rest3 =>
                  if (n <? 240)%N then
                    String a (String b (String c EmptyString)) :: code_units rest3
                  else
                    match rest3 with
                    | EmptyString => [s]
                    | String d rest4 =>
                        let cp :=
                          ((n mod 8) * 262144 + (N_of_ascii b mod 64) * 4096
                           + (N_of_ascii c mod 64) * 64 + N_of_ascii d mod 64 - 65536)%N in
                        unit3 (55296 + cp / 1024) :: unit3 (56320 + cp mod 1024)
                          :: code_units rest4
                    end
              end
        end
  end.

(** [s[i]] for each index [i]. *)
Definition chars_of (s : string) : list value := map VStr (code_units s).

(* --------------------------------------------------------------------- *)
(** *** Reading, writing and deleting properties *)

Definition opt_value (o : option value) : value :=
  match o with Some v => v | None => VUndefined end.

(** [v[k]].  Reading a property of [null] or [undefined] throws.  Prototype
    properties (methods) are not modelled: no key the accessors read names
    one, except [forEach], which has its own definition below. *)
Definition get_prop (v : value) (k : string) : result value :=
  match v with
  | VUndefined => Throw (TypeError "Cannot read properties of undefined")
  | VNull => Throw (TypeError "Cannot read properties of null")
  | VObj o => Ok (opt_value (assoc_get k o))
  | VArr items named =>
      match index_of_key k with
      | Some i => Ok (nth i items VUndefined)
      | None =>
          if String.eqb k "length" then Ok (VNum (Z.of_nat (List.length items)))
          else Ok (opt_value (assoc_get k named))
      end
  | VStr s =>
      match index_of_key k with
      | Some i => Ok (nth i (chars_of s) VUndefined)
      | None =>
          if String.eqb k "length" then Ok (VNum (Z.of_nat (List.length (code_units s))))
          else Ok VUndefined
      end
  | VBool _ | VNum _ | VNegZero | VInfinity _ | VNaN => Ok VUndefined
  end.

(** [v?.k]: [undefined] when [v] is [null] or [undefined]; never throws. *)
Definition get_opt (v : value) (k : string) : value :=
  match get_prop v k with
  | Ok x => x
  | Throw _ => VUndefined
  end.

(** [v[k] = x] for a key that is not an array index, in strict mode (the
    module is an ES module): assigning to a property of [null], [undefined]
    or a primitive throws.  The updated object is returned; the caller
    stores it back wherever that object lives. *)
Definition set_prop (v : value) (k : string) (x : value) : result value :=
  match v with
  | VObj o => Ok (VObj (assoc_set k x o))
  | VArr items named => Ok (VArr items (assoc_set k x named))
  | VUndefined => Throw (TypeError "Cannot set properties of undefined")
  | VNull => Throw (TypeError "Cannot set properties of null")
  | VBool _ | VNum _ | VNegZero | VInfinity _ | VNaN | VStr _ =>
      Throw (TypeError "Cannot create property on a primitive")
  end.

(** [delete v?.k] for a key that is not an array index: nothing happens when
    [v] is [null], [undefined] or a primitive. *)
Definition delete_opt (v : value) (k : string) : value :=
  match v with
  | VObj o => VObj (assoc_del k o)
  | VArr items named => VArr items (assoc_del k named)
  | _ => v
  end.

(** The own enumerable string keys, as object spread and [for ... in] visit
    them.  (JavaScript visits index-like keys first; the order of
    properties is not observed by any accessor here.) *)
Definition own_keys (v : value) : list string :=
  match v with
  | VObj o => map fst o
  | VArr items named =>
      (map key_of_index (seq 0 (List.length items)) ++ map fst named)%list
  | VStr s => map key_of_index (seq 0 (List.length (code_units s)))
  | _ => []
  end.

(** [{ ...target, ...source }], with [target] already copied: for each own
    key of [source], in order, [target[key] = source[key]]. *)
Definition spread (target : props) (source : value) : props :=
  fold_left (fun acc k => assoc_set k (get_opt source k) acc) (own_keys source) target.

(** Truthiness. *)
Definition truthy (v : value) : bool :=
  match v with
  | VUndefined | VNull | VNaN | VNegZero => false
  | VInfinity _ => true
  | VBool b => b
  | VNum n => negb (n =? 0)%Z
  | VStr s => negb (String.eqb s "")
  | VArr _ _ | VObj _ => true
  end.

(** [v === s] for a string constant [s]. *)
Definition strict_eq_str (v : value) (s : string) : bool :=
  match v with
  | VStr s' => String.eqb s' s
  | _ => false
  end.

(** [typeof v == 'object']. *)
Definition typeof_object (v : value) : bool :=
  match v with
  | VNull | VArr _ _ | VObj _ => true
  | _ => false
  end.

(* ===================================================================== *)
(** ** Runtime functions the class calls *)
(* ===================================================================== *)

(* --------------------------------------------------------------------- *)
(** *** White space *)

Definition byte_is (c : ascii) (n : nat) : bool := (nat_of_ascii c =? n)%nat.

(** The white space and line terminators of ECMAScript that take one byte
    in UTF-8: TAB, LF, VT, FF, CR and SP. *)
Definition white_space_1 (a : ascii) : bool :=
  let n := nat_of_ascii a in
  orb (n =? 32)%nat (andb (9 <=? n)%nat (n <=? 13)%nat).

(** Two bytes: U+00A0. *)
Definition white_space_2 (a b : ascii) : bool :=
  andb (byte_is a 194) (byte_is b 160).

(** Three bytes: U+1680, U+2000 to U+200A, U+2028, U+2029, U+202F, U+205F,
    U+3000 and U+FEFF. *)
Definition white_space_3 (a b c : ascii) : bool :=
  let n := nat_of_ascii c in
  orb (andb (byte_is a 225) (andb (byte_is b 154) (byte_is c 128)))
  (orb (andb (byte_is a 226)
          (orb (andb (byte_is b 128)
                  (orb (andb (128 <=? n)%nat (n <=? 138)%nat)
                  (orb (n =? 168)%nat (orb (n =? 169)%nat (n =? 175)%nat))))
               (andb (byte_is b 129) (byte_is c 159))))
  (orb (andb (byte_is a 227) (andb (byte_is b 128) (byte_is c 128)))
       (andb (byte_is a 239) (andb (byte_is b 187) (byte_is c 191))))).

(** The text without its leading white space.  With [backwards] the text
    is read from its end, so the bytes of a character come last first. *)
Fixpoint skip_white_space (backwards : bool) (s : string) : string :=
  match s with
  | EmptyString => s
  | String a rest =>
      if white_space_1 a then skip_white_space backwards rest
      else
        match rest with
        | EmptyString => s
        | String b rest2 =>
            if (if backwards then white_space_2 b a else white_space_2 a b)
            then skip_white_space backwards rest2
            else
              match rest2 with
              | EmptyString => s
              | String c rest3 =>
                  if (if backwards then white_space_3 c b a else white_space_3 a b c)
                  then skip_white_space backwards rest3
                  else s
              end
        end
  end.

(* --------------------------------------------------------------------- *)
(** *** [path.join] (POSIX) *)

Fixpoint split_slash_aux (cur : string -> string) (s : string) : list string :=
  match s with
  | EmptyString => [cur EmptyString]
  | String c rest =>
      if Ascii.eqb c "/" then cur EmptyString :: split_slash_aux (fun x => x) rest
      else split_slash_aux (fun x => cur (String c x)) rest
  end.

(** ["a/b//c"] is [["a"; "b"; ""; "c"]]. *)
Definition split_slash (s : string) : list string := split_slash_aux (fun x => x) s.

Fixpoint ends_with_slash (s : string) : bool :=
  match s with
  | EmptyString => false
  | String c EmptyString => Ascii.eqb c "/"
  | String _ rest => ends_with_slash rest
  end.

Definition starts_with_slash (s : string) : bool :=
  match s with
  | String c _ => Ascii.eqb c "/"
  | EmptyString => false
  end.

(** Node's [normalizeString]: empty and ["."] segments are dropped and
    [".."] removes the segment before it; [stack] holds the segments kept so
    far, last first. *)
Fixpoint normalize_segments (allowAboveRoot : bool) (segs stack : list string)
    : list string :=
  match segs with
  | [] => rev stack
  | seg :: rest =>
      if orb (String.eqb seg "") (String.eqb seg ".") then
        normalize_segments allowAboveRoot rest stack
      else if String.eqb seg ".." then
        match stack with
        | top :: below =>
            if String.eqb top ".." then
              normalize_segments allowAboveRoot rest
                (if allowAboveRoot then ".." :: stack else stack)
            else normalize_segments allowAboveRoot rest below
        | [] =>
            normalize_segments allowAboveRoot rest
              (if allowAboveRoot then [".."] else [])
        end
      else normalize_segments allowAboveRoot rest (seg :: stack)
  end.

Definition path_normalize (p : string) : string :=
  if String.eqb p "" then "."
  else
    let isAbsolute := starts_with_slash p in
    let trailingSeparator := ends_with_slash p in
    let body := String.concat "/" (normalize_segments (negb isAbsolute) (split_slash p) []) in
    if String.eqb body "" then
      if isAbsolute then "/" else if trailingSeparator then "./" else "."
    else
      (if isAbsolute then "/" else "") ++ body ++ (if trailingSeparator then "/" else "").

(** [path.join(a, b)]: the non-empty arguments joined by ["/"], normalised. *)
Definition path_join (a b : string) : string :=
  let parts := filter (fun x => negb (String.eqb x "")) [a; b] in
  match parts with
  | [] => "."
  | _ => path_normalize (String.concat "/" parts)
  end.

(* --------------------------------------------------------------------- *)
(** *** [just-merge] *)

(** [merge(target, extender)] of the [just-merge] package (a dependency, not
    part of this repository): every argument must be an object, then each
    enumerable property of [extender] is assigned to [target], which is
    returned.  The assignment is one level deep: a property that holds an
    object is assigned as a whole, not merged into the target's.  The
    assignment [result["__proto__"] = ...] adds no member: it acts on the
    prototype of the result, which the model does not represent (no
    accessor reads an inherited member of that result). *)
Definition merge_argument_ok (v : value) : bool :=
  andb (truthy v) (typeof_object v).

Definition assigned_keys (extender : value) : list string :=
  filter (fun key => negb (String.eqb key "__proto__")) (own_keys extender).

Definition merge (target extender : value) : result value :=
  if negb (merge_argument_ok extender) then Throw (Error "expected object, got extender")
  else if negb (merge_argument_ok target) then Throw (Error "expected object, got target")
  else
    fold_left
      (fun acc key =>
         match acc with
         | Ok result => set_prop result key (get_opt extender key)
         | Throw e => Throw e
         end)
      (assigned_keys extender) (Ok target).

(** [s.trim()]. *)
Fixpoint string_rev_append (s acc : string) : string :=
  match s with
  | EmptyString => acc
  | String c rest => string_rev_append rest (String c acc)
  end.

Definition string_rev (s : string) : string := string_rev_append s "".

Definition trim (s : string) : string :=
  string_rev (skip_white_space true (string_rev (skip_white_space false s))).

(* ===================================================================== *)
(** ** Constants, environment and store *)
(* ===================================================================== *)

(** The constants and enumeration values the class imports from
    [./Constants], [../types], [../worker] and [poolifier].  Those modules
    are not among the sources, so the values are parameters of the model. *)
Record Constants : Type := {
  DEFAULT_UI_SERVER_HOST : string;
  DEFAULT_UI_SERVER_PORT : Z;
  DEFAULT_PERFORMANCE_RECORDS_FILENAME : string;
  DEFAULT_PERFORMANCE_RECORDS_DB_NAME : string;
  DEFAULT_WORKER_START_DELAY : Z;
  DEFAULT_ELEMENTS_PER_WORKER : Z;
  DEFAULT_ELEMENT_START_DELAY : Z;
  DEFAULT_POOL_MIN_SIZE : Z;
  DEFAULT_POOL_MAX_SIZE : Z;
  ApplicationProtocol_WS : string;
  StorageType_JSON_FILE : string;
  StorageType_SQLITE : string;
  WorkerProcessType_workerSet : string;
  WorkerProcessType_dynamicPool : string;
  WorkerProcessType_staticPool : string;
  WorkerChoiceStrategies_ROUND_ROBIN : string;
  DEFAULT_LOG_STATISTICS_INTERVAL : Z;
  SupervisionUrlDistribution_ROUND_ROBIN : string
}.

(** What reading and parsing the configuration file gives at this moment:
    [fs.readFileSync] throws an error carrying [code], or [JSON.parse]
    throws a [SyntaxError] (which has no code), or the file holds a JSON
    object, as [ConfigurationData] declares. *)
Inductive file_state : Type :=
| ReadFails (code : option string)
| ParseFails
| Parses (doc : props).

(** Everything outside the class that a call depends on. *)
Record Env : Type := {
  constants : Constants;
  (** [fs.readFileSync(configurationFile)] followed by [JSON.parse] *)
  configurationFile : file_state;
  (** [fs.watch(configurationFile, ...)]: [None] when it returns a watcher,
      [Some code] when it throws an error carrying [code] *)
  watchFailure : option (option string);
  (** [Utils.isCFEnvironment()] *)
  isCFEnvironment : bool;
  (** [process.env.PORT] *)
  env_PORT : option string;
  (** [path.resolve(path.dirname(fileURLToPath(import.meta.url)), '../')] *)
  moduleParentDir : string;
  (** [new URL(v).pathname]; [None] when the constructor throws *)
  urlPathname : value -> option string;
  (** [parseInt(x)] for [x : string | undefined], the built-in function *)
  parseInt : option string -> value;
  (** [s.toLowerCase()], the built-in method of strings *)
  toLowerCase : string -> string
}.

Inductive file_error_class : Type :=
| NotFound | AlreadyExists | AccessDenied | OtherFileError.

(** Lines written to the console, without the time stamp of [logPrefix] and
    without colours. *)
Inductive console_line : Type :=
| DeprecatedSection (section : string)
| DeprecatedKey (key : string) (section : option string) (logMsgToAppend : string)
| DeprecatedTemplateKey (key : string) (file : value)
| FileWarning (cls : file_error_class).

(** The public static methods that read the configuration. *)
Inductive accessor : Type :=
| GetLogStatisticsInterval
| GetUIServer
| GetPerformanceStorage
| GetAutoReconnectMaxRetries
| GetStationTemplateUrls
| GetWorker
| WorkerPoolInUse
| WorkerDynamicPoolInUse
| GetLogConsole
| GetLogFormat
| GetLogRotate
| GetLogMaxFiles
| GetLogMaxSize
| GetLogLevel
| GetLogFile
| GetLogErrorFile
| GetSupervisionUrls
| GetSupervisionUrlDistribution.

(** How a promise settles. *)
Inductive settled : Type :=
| Resolved
| Rejected (reason : exn).

(** The code of a change callback, [() => Promise<void>], as far as the
    class sees it.  The callback reaches the class only through its public
    methods: it calls an accessor and goes on with code that may depend on
    what the call returned or threw, or it registers a callback; it waits
    ([await]), after which the rest runs in a later turn; and it ends by
    settling its promise or by throwing.  [Throws] in the first turn is an
    exception out of the call itself, before there is a promise (a function
    that is not [async]); in a later turn it rejects the promise. *)
Inductive callback : Type :=
| Throws (e : exn)
| Settles (s : settled)
| Awaits (rest : callback)
| Calls (a : accessor) (k : result value -> callback)
| Registers (cb rest : callback).

(** The promise a callback has returned: settled, or waiting with the code
    that is still to run. *)
Inductive promise : Type :=
| Settled (s : settled)
| Pending (rest : callback).

(** The static fields of the class, the console, and the number of
    subscriptions [fs.watch] has handed out to this process. *)
Record Store : Type := {
  configuration : option props;
  configurationFileWatcher : option nat;
  configurationChangeCallback : option callback;
  console : list console_line;
  fsWatchers : nat
}.

Definition initial : Store :=
  {| configuration := None;
     configurationFileWatcher := None;
     configurationChangeCallback := None;
     console := [];
     fsWatchers := 0 |}.

Definition with_configuration (c : option props) (st : Store) : Store :=
  {| configuration := c;
     configurationFileWatcher := configurationFileWatcher st;
     configurationChangeCallback := configurationChangeCallback st;
     console := console st;
     fsWatchers := fsWatchers st |}.

(* ===================================================================== *)
(** ** Computations: reader, state, exceptions *)
(* ===================================================================== *)

(** A computation reads the environment, updates the store and returns or
    throws.  The store survives a throw: what was logged stays logged. *)
Definition M (A : Type) : Type := Env -> Store -> result A * Store.

Definition ret {A} (a : A) : M A := fun _ st => (Ok a, st).

Definition bind {A B} (m : M A) (k : A -> M B) : M B :=
  fun env st =>
    match m env st with
    | (Ok a, st') => k a env st'
    | (Throw e, st') => (Throw e, st')
    end.

Declare Scope conf_scope.
Delimit Scope conf_scope with conf.
Notation "x <- m ;; k" := (bind m (fun x => k))
  (at level 61, m at next level, right associativity) : conf_scope.
Notation "m ;; k" := (bind m (fun _ => k))
  (at level 61, right associativity) : conf_scope.
Local Open Scope conf_scope.

Definition throw {A} (e : exn) : M A := fun _ st => (Throw e, st).

Definition lift {A} (r : result A) : M A := fun _ st => (r, st).

Definition asks {A} (f : Env -> A) : M A := fun env st => (Ok (f env), st).

Definition gets {A} (f : Store -> A) : M A := fun _ st => (Ok (f st), st).

Definition modify (f : Store -> Store) : M unit := fun _ st => (Ok tt, f st).

Definition when (b : bool) (m : M unit) : M unit := if b then m else ret tt.

(** [console.error] / [console.warn]. *)
Definition console_write (l : console_line) : M unit :=
  modify (fun st =>
    {| configuration := configuration st;
       configurationFileWatcher := configurationFileWatcher st;
       configurationChangeCallback := configurationChangeCallback st;
       console := (console st ++ [l])%list;
       fsWatchers := fsWatchers st |}).

(* ===================================================================== *)
(** ** Utils *)
(* ===================================================================== *)

Module Utils.

(** Modelled from the spec: [Utils.isUndefined] is not among the sources;
    it is the test for "absent" the accessors apply to a looked-up key. *)
Definition isUndefined (v : value) : bool :=
  match v with VUndefined => true | _ => false end.

(** Modelled from the spec: [Utils.hasOwnProp] is not among the sources; it
    is the existence check of an accessor's override trigger ("key present"),
    which is false for every key when the document is absent. *)
Definition hasOwnProp (v : value) (k : string) : bool :=
  match v with
  | VObj o => match assoc_get k o with Some _ => true | None => false end
  | _ => false
  end.

End Utils.

(* ===================================================================== *)
(** ** The Configuration class *)
(* ===================================================================== *)

Module Configuration.

Import Utils.

Definition setConfigurationChangeCallback (cb : callback) (st : Store) : Store :=
  {| configuration := configuration st;
     configurationFileWatcher := configurationFileWatcher st;
     configurationChangeCallback := Some cb;
     console := console st;
     fsWatchers := fsWatchers st |}.

(** [handleFileException]: the [switch] on [error.code], then one
    [console.warn]. *)
Definition classify (code : option string) : file_error_class :=
  match code with
  | Some c =>
      if String.eqb c "ENOENT" then NotFound
      else if String.eqb c "EEXIST" then AlreadyExists
      else if String.eqb c "EACCES" then AccessDenied
      else OtherFileError
  | None => OtherFileError
  end.

Definition handleFileException (code : option string) : M unit :=
  console_write (FileWarning (classify code)).

(** [getConfigurationFileWatcher]: the watcher [fs.watch] returns, or
    [undefined] after the exception has been logged. *)
Definition getConfigurationFileWatcher : M (option nat) :=
  failure <- asks watchFailure ;;
  match failure with
  | None =>
      n <- gets fsWatchers ;;
      modify (fun st =>
        {| configuration := configuration st;
           configurationFileWatcher := configurationFileWatcher st;
           configurationChangeCallback := configurationChangeCallback st;
           console := console st;
           fsWatchers := S (fsWatchers st) |}) ;;
      ret (Some n)
  | Some code =>
      handleFileException code ;;
      ret None
  end.

Definition config_value (c : option props) : value :=
  match c with
  | Some doc => VObj doc
  | None => VNull
  end.

(** [getConfig]: the cached document, loaded first when there is none. *)
Definition getConfig : M value :=
  cached <- gets configuration ;;
  match cached with
  | Some doc => ret (VObj doc)
  | None =>
      file <- asks configurationFile ;;
      match file with
      | Parses doc => modify (with_configuration (Some doc))
      | ReadFails code => handleFileException code
      | ParseFails => handleFileException None
      end ;;
      watcher <- gets configurationFileWatcher ;;
      match watcher with
      | Some _ => ret tt
      | None =>
          w <- getConfigurationFileWatcher ;;
          modify (fun st =>
            {| configuration := configuration st;
               configurationFileWatcher := w;
               configurationChangeCallback := configurationChangeCallback st;
               console := console st;
               fsWatchers := fsWatchers st |})
      end ;;
      now <- gets configuration ;;
      ret (config_value now)
  end.

(** [target.k = v] where [target] is what [getConfig()] returned: that is
    the cached document itself, so the assignment updates the cache. *)
Definition assignConfig (target : value) (k : string) (v : value) : M unit :=
  target' <- lift (set_prop target k v) ;;
  match target' with
  | VObj doc => modify (with_configuration (Some doc))
  | _ => ret tt
  end.

(** [warnDeprecatedConfigurationKey(key, sectionName, logMsgToAppend)];
    [sectionName] is [None] where the caller passes [undefined]. *)
Definition warnDeprecatedConfigurationKey (key : string)
    (sectionName : option string) (logMsgToAppend : string) : M unit :=
  let topLevel : M unit :=
    c <- getConfig ;;
    v <- lift (get_prop c key) ;;
    when (negb (isUndefined v)) (console_write (DeprecatedKey key None logMsgToAppend)) in
  match sectionName with
  | None => topLevel
  | Some sec =>
      if String.eqb sec "" then topLevel
      else
        c1 <- getConfig ;;
        s1 <- lift (get_prop c1 sec) ;;
        if isUndefined s1 then topLevel
        else
          c2 <- getConfig ;;
          s2 <- lift (get_prop c2 sec) ;;
          k <- lift (get_prop s2 key) ;;
          if isUndefined k then topLevel
          else console_write (DeprecatedKey key (Some sec) logMsgToAppend)
  end.

(** [buildPerformanceUriFilePath(file)]. *)
Definition buildPerformanceUriFilePath (env : Env) (file : string) : string :=
  "file://" ++ path_join (moduleParentDir env) file.

(** [getDefaultPerformanceStorageUri(storageType)]. *)
Definition getDefaultPerformanceStorageUri (env : Env) (storageType : string)
    : result string :=
  let k := constants env in
  if String.eqb storageType (StorageType_JSON_FILE k) then
    Ok (buildPerformanceUriFilePath env (DEFAULT_PERFORMANCE_RECORDS_FILENAME k))
  else if String.eqb storageType (StorageType_SQLITE k) then
    Ok (buildPerformanceUriFilePath env (DEFAULT_PERFORMANCE_RECORDS_DB_NAME k ++ ".db"))
  else
    Throw (Error ("Performance storage URI is mandatory with storage type '"
                  ++ storageType ++ "'")).

(** The built-in UI server configuration. *)
Definition defaultUIServer (k : Constants) : value :=
  VObj [("enabled", VBool false);
        ("type", VStr (ApplicationProtocol_WS k));
        ("options", VObj [("host", VStr (DEFAULT_UI_SERVER_HOST k));
                          ("port", VNum (DEFAULT_UI_SERVER_PORT k))])].

(** [getUIServer].  After [merge], [uiServerConfiguration.options] is the
    very object the document holds under [uiServer.options] whenever the
    document has one, so the [delete] and the assignment of the cloud
    branch change the cached document too. *)
Definition getUIServer : M value :=
  c0 <- getConfig ;;
  when (hasOwnProp c0 "uiWebSocketServer")
       (console_write (DeprecatedSection "uiWebSocketServer")) ;;
  k <- asks constants ;;
  c1 <- getConfig ;;
  uiServerConfiguration <-
    (if hasOwnProp c1 "uiServer" then
       c2 <- getConfig ;;
       lift (merge (defaultUIServer k) (get_opt c2 "uiServer"))
     else ret (defaultUIServer k)) ;;
  cf <- asks isCFEnvironment ;;
  if cf then
    options <- lift (get_prop uiServerConfiguration "options") ;;
    let options1 := delete_opt options "host" in
    PORT <- asks env_PORT ;;
    port <- asks (fun env => parseInt env PORT) ;;
    options2 <- lift (set_prop options1 "port" port) ;;
    cached <- gets configuration ;;
    let section := get_opt (config_value cached) "uiServer" in
    (if andb (hasOwnProp (config_value cached) "uiServer")
             (existsb (String.eqb "options") (own_keys section)) then
       section' <- lift (set_prop section "options" options2) ;;
       assignConfig (config_value cached) "uiServer" section'
     else ret tt) ;;
    lift (set_prop uiServerConfiguration "options" options2)
  else ret uiServerConfiguration.

(** [getPerformanceStorage]. *)
Definition getPerformanceStorage : M value :=
  warnDeprecatedConfigurationKey "URI" (Some "performanceStorage") "Use 'uri' instead" ;;
  env <- asks (fun e => e) ;;
  let k := constants env in
  defaultUri <- lift (getDefaultPerformanceStorageUri env (StorageType_JSON_FILE k)) ;;
  let storageConfiguration : props :=
    [("enabled", VBool false);
     ("type", VStr (StorageType_JSON_FILE k));
     ("uri", VStr defaultUri)] in
  c1 <- getConfig ;;
  if hasOwnProp c1 "performanceStorage" then
    c2 <- getConfig ;;
    let section := get_opt c2 "performanceStorage" in
    c3 <- getConfig ;;
    rewritten <-
      (if strict_eq_str (get_opt (get_opt c3 "performanceStorage") "type")
                        (StorageType_JSON_FILE k) then
         c4 <- getConfig ;;
         let uri := get_opt (get_opt c4 "performanceStorage") "uri" in
         if truthy uri then
           c5 <- getConfig ;;
           match urlPathname env (get_opt (get_opt c5 "performanceStorage") "uri") with
           | Some pathname =>
               ret (VObj [("uri", VStr (buildPerformanceUriFilePath env pathname))])
           | None => throw (TypeError "Invalid URL")
           end
         else ret uri
       else ret (VBool false)) ;;
    ret (VObj (spread (spread (spread [] (VObj storageConfiguration)) section) rewritten))
  else ret (VObj storageConfiguration).

(** [Array.prototype.forEach], reached through [v.forEach(...)]. *)
Fixpoint forEach_items (f : value -> M unit) (items : list value) : M unit :=
  match items with
  | [] => ret tt
  | x :: rest => f x ;; forEach_items f rest
  end.

Definition forEach (v : value) (f : value -> M unit) : M unit :=
  match v with
  | VArr items _ => forEach_items f items
  | VUndefined | VNull => throw (TypeError "Cannot read properties (reading 'forEach')")
  | _ => throw (TypeError "forEach is not a function")
  end.

(** The arrow function [getStationTemplateUrls] passes to [forEach]. *)
Definition numberOfStationWarning (stationTemplateUrl : value) : M unit :=
  n <- lift (get_prop stationTemplateUrl "numberOfStation") ;;
  if negb (isUndefined n) then
    file <- lift (get_prop stationTemplateUrl "file") ;;
    console_write (DeprecatedTemplateKey "numberOfStation" file)
  else ret tt.

(** [getStationTemplateUrls]. *)
Definition getStationTemplateUrls : M value :=
  warnDeprecatedConfigurationKey "stationTemplateURLs" None
    "Use 'stationTemplateUrls' instead" ;;
  c1 <- getConfig ;;
  legacy <- lift (get_prop c1 "stationTemplateURLs") ;;
  (if negb (isUndefined legacy) then
     target <- getConfig ;;
     c2 <- getConfig ;;
     v <- lift (get_prop c2 "stationTemplateURLs") ;;
     assignConfig target "stationTemplateUrls" v
   else ret tt) ;;
  c3 <- getConfig ;;
  urls <- lift (get_prop c3 "stationTemplateUrls") ;;
  forEach urls numberOfStationWarning ;;
  c4 <- getConfig ;;
  ret (get_opt c4 "stationTemplateUrls").

(** [Utils.hasOwnProp(getConfig(), key) ? getConfig()?.key : dflt]. *)
Definition configured (key : string) (dflt : value) : M value :=
  c <- getConfig ;;
  if hasOwnProp c key then
    c' <- getConfig ;;
    ret (get_opt c' key)
  else ret dflt.

(** [a ?? b]. *)
Definition nullish_or (a b : value) : value :=
  match a with
  | VUndefined | VNull => b
  | _ => a
  end.

Definition worker_section_msg : string :=
  "Use 'worker' section to define the type of worker process model instead".

(** [getWorker]. *)
Definition getWorker : M value :=
  warnDeprecatedConfigurationKey "useWorkerPool" None worker_section_msg ;;
  warnDeprecatedConfigurationKey "workerProcess" None worker_section_msg ;;
  warnDeprecatedConfigurationKey "workerStartDelay" None
    "Use 'worker' section to define the worker start delay instead" ;;
  warnDeprecatedConfigurationKey "chargingStationsPerWorker" None
    "Use 'worker' section to define the number of element(s) per worker instead" ;;
  warnDeprecatedConfigurationKey "elementStartDelay" None
    "Use 'worker' section to define the worker's element start delay instead" ;;
  warnDeprecatedConfigurationKey "workerPoolMinSize" None
    "Use 'worker' section to define the worker pool minimum size instead" ;;
  warnDeprecatedConfigurationKey "workerPoolSize;" None
    "Use 'worker' section to define the worker pool maximum size instead" ;;
  warnDeprecatedConfigurationKey "workerPoolMaxSize;" None
    "Use 'worker' section to define the worker pool maximum size instead" ;;
  warnDeprecatedConfigurationKey "workerPoolStrategy;" None
    "Use 'worker' section to define the worker pool strategy instead" ;;
  k <- asks constants ;;
  processType <- configured "workerProcess" (VStr (WorkerProcessType_workerSet k)) ;;
  startDelay <- configured "workerStartDelay" (VNum (DEFAULT_WORKER_START_DELAY k)) ;;
  elementsPerWorker <-
    configured "chargingStationsPerWorker" (VNum (DEFAULT_ELEMENTS_PER_WORKER k)) ;;
  elementStartDelay <-
    configured "elementStartDelay" (VNum (DEFAULT_ELEMENT_START_DELAY k)) ;;
  poolMinSize <- configured "workerPoolMinSize" (VNum (DEFAULT_POOL_MIN_SIZE k)) ;;
  poolMaxSize <- configured "workerPoolMaxSize" (VNum (DEFAULT_POOL_MAX_SIZE k)) ;;
  c1 <- getConfig ;;
  let poolStrategy :=
    nullish_or (get_opt c1 "workerPoolStrategy")
               (VStr (WorkerChoiceStrategies_ROUND_ROBIN k)) in
  let workerConfiguration : props :=
    [("processType", processType);
     ("startDelay", startDelay);
     ("elementsPerWorker", elementsPerWorker);
     ("elementStartDelay", elementStartDelay);
     ("poolMinSize", poolMinSize);
     ("poolMaxSize", poolMaxSize);
     ("poolStrategy", poolStrategy)] in
  c2 <- getConfig ;;
  if hasOwnProp c2 "worker" then
    c3 <- getConfig ;;
    ret (VObj (spread (spread [] (VObj workerConfiguration)) (get_opt c3 "worker")))
  else ret (VObj workerConfiguration).

(** [workerPoolInUse]: [[dynamicPool, staticPool].includes(processType)]. *)
Definition workerPoolInUse : M value :=
  w <- getWorker ;;
  processType <- lift (get_prop w "processType") ;;
  k <- asks constants ;;
  ret (VBool (existsb (strict_eq_str processType)
                [WorkerProcessType_dynamicPool k; WorkerProcessType_staticPool k])).

(** [workerDynamicPoolInUse]: [processType === dynamicPool]. *)
Definition workerDynamicPoolInUse : M value :=
  w <- getWorker ;;
  processType <- lift (get_prop w "processType") ;;
  k <- asks constants ;;
  ret (VBool (strict_eq_str processType (WorkerProcessType_dynamicPool k))).

(** [getLogMaxFiles]: [hasOwnProp(getConfig(), 'logMaxFiles') &&
    getConfig()?.logMaxFiles]. *)
Definition getLogMaxFiles : M value :=
  c <- getConfig ;;
  if hasOwnProp c "logMaxFiles" then
    c' <- getConfig ;;
    ret (get_opt c' "logMaxFiles")
  else ret (VBool false).

(** [getLogMaxSize]: [hasOwnProp(getConfig(), 'logMaxFiles') &&
    getConfig()?.logMaxSize]. *)
Definition getLogMaxSize : M value :=
  c <- getConfig ;;
  if hasOwnProp c "logMaxFiles" then
    c' <- getConfig ;;
    ret (get_opt c' "logMaxSize")
  else ret (VBool false).

(** [getLogStatisticsInterval]. *)
Definition getLogStatisticsInterval : M value :=
  warnDeprecatedConfigurationKey "statisticsDisplayInterval" None
    "Use 'logStatisticsInterval' instead" ;;
  k <- asks constants ;;
  configured "logStatisticsInterval" (VNum (DEFAULT_LOG_STATISTICS_INTERVAL k)).

(** [getAutoReconnectMaxRetries]: without the key the method ends without a
    [return], that is with [undefined]. *)
Definition getAutoReconnectMaxRetries : M value :=
  warnDeprecatedConfigurationKey "autoReconnectTimeout" None
    "Use 'ConnectionTimeOut' OCPP parameter in charging station template instead" ;;
  warnDeprecatedConfigurationKey "connectionTimeout" None
    "Use 'ConnectionTimeOut' OCPP parameter in charging station template instead" ;;
  warnDeprecatedConfigurationKey "autoReconnectMaxRetries" None
    "Use it in charging station template instead" ;;
  configured "autoReconnectMaxRetries" VUndefined.

(** [getLogConsole]. *)
Definition getLogConsole : M value :=
  warnDeprecatedConfigurationKey "consoleLog" None "Use 'logConsole' instead" ;;
  configured "logConsole" (VBool false).

(** [getLogFormat]. *)
Definition getLogFormat : M value := configured "logFormat" (VStr "simple").

(** [getLogRotate]. *)
Definition getLogRotate : M value := configured "logRotate" (VBool true).

(** [getLogLevel]: [getConfig()?.logLevel?.toLowerCase()] when the key is
    present. *)
Definition getLogLevel : M value :=
  c <- getConfig ;;
  if hasOwnProp c "logLevel" then
    c' <- getConfig ;;
    match get_opt c' "logLevel" with
    | VUndefined | VNull => ret VUndefined
    | VStr s =>
        lowered <- asks (fun env => toLowerCase env s) ;;
        ret (VStr lowered)
    | _ => throw (TypeError "toLowerCase is not a function")
    end
  else ret (VStr "info").

(** [getLogFile]. *)
Definition getLogFile : M value := configured "logFile" (VStr "combined.log").

(** [getLogErrorFile]. *)
Definition getLogErrorFile : M value :=
  warnDeprecatedConfigurationKey "errorFile" None "Use 'logErrorFile' instead" ;;
  configured "logErrorFile" (VStr "error.log").

(** [getSupervisionUrls]. *)
Definition getSupervisionUrls : M value :=
  warnDeprecatedConfigurationKey "supervisionURLs" None "Use 'supervisionUrls' instead" ;;
  c1 <- getConfig ;;
  legacy <- lift (get_prop c1 "supervisionURLs") ;;
  (if negb (isUndefined legacy) then
     target <- getConfig ;;
     c2 <- getConfig ;;
     v <- lift (get_prop c2 "supervisionURLs") ;;
     assignConfig target "supervisionUrls" v
   else ret tt) ;;
  c3 <- getConfig ;;
  ret (get_opt c3 "supervisionUrls").

(** [getSupervisionUrlDistribution]. *)
Definition getSupervisionUrlDistribution : M value :=
  warnDeprecatedConfigurationKey "distributeStationToTenantEqually" None
    "Use 'supervisionUrlDistribution' instead" ;;
  warnDeprecatedConfigurationKey "distributeStationsToTenantsEqually" None
    "Use 'supervisionUrlDistribution' instead" ;;
  k <- asks constants ;;
  configured "supervisionUrlDistribution"
             (VStr (SupervisionUrlDistribution_ROUND_ROBIN k)).

(** A call of one of the public accessors. *)
Definition run_accessor (a : accessor) : M value :=
  match a with
  | GetLogStatisticsInterval => getLogStatisticsInterval
  | GetAutoReconnectMaxRetries => getAutoReconnectMaxRetries
  | GetLogConsole => getLogConsole
  | GetLogFormat => getLogFormat
  | GetLogRotate => getLogRotate
  | GetLogLevel => getLogLevel
  | GetLogFile => getLogFile
  | GetLogErrorFile => getLogErrorFile
  | GetSupervisionUrls => getSupervisionUrls
  | GetSupervisionUrlDistribution => getSupervisionUrlDistribution
  | GetUIServer => getUIServer
  | GetPerformanceStorage => getPerformanceStorage
  | GetStationTemplateUrls => getStationTemplateUrls
  | GetWorker => getWorker
  | WorkerPoolInUse => workerPoolInUse
  | WorkerDynamicPoolInUse => workerDynamicPoolInUse
  | GetLogMaxFiles => getLogMaxFiles
  | GetLogMaxSize => getLogMaxSize
  end.

(** [configurationChangeCallback()]: the code of the callback runs up to
    its first wait or its end; the call returns the promise, or throws. *)
Fixpoint invoke (cb : callback) (env : Env) (st : Store) : result promise * Store :=
  match cb with
  | Throws e => (Throw e, st)
  | Settles s => (Ok (Settled s), st)
  | Awaits rest => (Ok (Pending rest), st)
  | Calls a k =>
      let (r, st') := run_accessor a env st in
      invoke (k r) env st'
  | Registers cb' rest => invoke rest env (setConfigurationChangeCallback cb' st)
  end.

(** A later turn of a waiting callback: the rest of its code runs in the
    same way, and an exception now rejects the promise. *)
Definition resume (rest : callback) (env : Env) (st : Store) : promise * Store :=
  match invoke rest env st with
  | (Ok p, st') => (p, st')
  | (Throw e, st') => (Settled (Rejected e), st')
  end.

(** The handler given to [.catch]:
    [throw typeof error === 'string' ? new Error(error) : error]. *)
Definition rethrown (error : exn) : exn :=
  match error with
  | Raw (VStr s) => Error s
  | _ => error
  end.

(** How a turn of the watch listener ends: normally; with the exception the
    callback threw out of its call, which nothing in the listener catches;
    with the promise of [.catch] rejected by the re-thrown error; or with
    the callback waiting, the handler attached to its promise. *)
Inductive listener_outcome : Type :=
| Completed
| Threw (e : exn)
| Rethrown (e : exn)
| Waiting (rest : callback).

(** [promise.catch(handler)] with the handler above. *)
Definition chain (p : promise) : listener_outcome :=
  match p with
  | Settled Resolved => Completed
  | Settled (Rejected error) => Rethrown (rethrown error)
  | Pending rest => Waiting rest
  end.

(** [filename?.trim().length > 0]. *)
Definition filename_given (filename : option string) : bool :=
  match filename with
  | Some f => (0 <? String.length (trim f))%nat
  | None => false
  end.

(** The listener passed to [fs.watch]. *)
Definition watchListener (event : string) (filename : option string)
    (env : Env) (st : Store) : listener_outcome * Store :=
  if andb (filename_given filename) (String.eqb event "change") then
    let invalidated := with_configuration None st in
    match configurationChangeCallback invalidated with
    | Some cb =>
        match invoke cb env invalidated with
        | (Ok p, st') => (chain p, st')
        | (Throw e, st') => (Threw e, st')
        end
    | None => (Completed, invalidated)
    end
  else (Completed, st).

(** A later turn of a callback the listener has called. *)
Definition resumed (rest : callback) (env : Env) (st : Store)
    : listener_outcome * Store :=
  let (p, st') := resume rest env st in (chain p, st').

End Configuration.

(* ===================================================================== *)
(** ** The process: calls and file events over time *)
(* ===================================================================== *)

(** What can happen to the class during the life of the process.  A file
    event reaches the listener only while a watcher exists; [Resume] is a
    later turn of a callback that was waiting. *)
Inductive action : Type :=
| Call (a : accessor)
| Register (cb : callback)
| FileEvent (event : string) (filename : option string)
| Resume (rest : callback).

Definition step (env : Env) (act : action) (st : Store) : Store :=
  match act with
  | Call a => snd (Configuration.run_accessor a env st)
  | Register cb => Configuration.setConfigurationChangeCallback cb st
  | FileEvent event filename =>
      match configurationFileWatcher st with
      | Some _ => snd (Configuration.watchListener event filename env st)
      | None => st
      end
  | Resume rest => snd (Configuration.resumed rest env st)
  end.

(** A run: each action happens in the environment of its moment. *)
Fixpoint run (trace : list (Env * action)) (st : Store) : Store :=
  match trace with
  | [] => st
  | (env, act) :: rest => run rest (step env act st)
  end.

(* ===================================================================== *)
(** ** A sample installation *)
(* ===================================================================== *)

Module Sample.

Definition sampleConstants : Constants :=
  {| DEFAULT_UI_SERVER_HOST := "localhost";
     DEFAULT_UI_SERVER_PORT := 8080;
     DEFAULT_PERFORMANCE_RECORDS_FILENAME := "performanceRecords.json";
     DEFAULT_PERFORMANCE_RECORDS_DB_NAME := "e-mobility-charging-stations-simulator";
     DEFAULT_WORKER_START_DELAY := 500;
     DEFAULT_ELEMENTS_PER_WORKER := 1;
     DEFAULT_ELEMENT_START_DELAY := 0;
     DEFAULT_POOL_MIN_SIZE := 4;
     DEFAULT_POOL_MAX_SIZE := 16;
     ApplicationProtocol_WS := "ws";
     StorageType_JSON_FILE := "jsonfile";
     StorageType_SQLITE := "sqlite";
     WorkerProcessType_workerSet := "workerSet";
     WorkerProcessType_dynamicPool := "dynamicPool";
     WorkerProcessType_staticPool := "staticPool";
     WorkerChoiceStrategies_ROUND_ROBIN := "ROUND_ROBIN";
     DEFAULT_LOG_STATISTICS_INTERVAL := 60;
     SupervisionUrlDistribution_ROUND_ROBIN := "round-robin" |}.

(** The text after the first ["/"] that follows ["//"], up to ["?"] or
    ["#"]: the path of [scheme://authority/path?query#fragment]. *)
Fixpoint until_query (s : string) : string :=
  match s with
  | EmptyString => EmptyString
  | String c rest =>
      if orb (Ascii.eqb c "?") (Ascii.eqb c "#") then EmptyString
      else String c (until_query rest)
  end.

Fixpoint from_slash (s : string) : string :=
  match s with
  | EmptyString => EmptyString
  | String c rest => if Ascii.eqb c "/" then s else from_slash rest
  end.

Fixpoint after_authority_mark (s : string) : option string :=
  match s with
  | String ":" (String "/" (String "/" rest)) => Some rest
  | String c rest =>
      if orb (Ascii.eqb c "/") (orb (Ascii.eqb c "?") (Ascii.eqb c "#")) then None
      else after_authority_mark rest
  | EmptyString => None
  end.

(** A URL parser for strings of the shape [scheme://authority/path...]
    whose path has no dot segments, enough for the file and network URIs
    used below, where it gives what [new URL] gives.  It rejects every
    other argument, which is what [new URL] does for a string without a
    scheme, such as a bare file name; it is not [new URL] on a URI whose
    scheme is not followed by [//] or whose path has dot segments. *)
Definition simpleUrlPathname (v : value) : option string :=
  match v with
  | VStr s =>
      match after_authority_mark s with
      | Some rest =>
          let p := until_query (from_slash rest) in
          Some (if String.eqb p "" then "/" else p)
      | None => None
      end
  | _ => None
  end.

(** The value of a digit of the radix: [0] to [9], then the letters in
    either case. *)
Definition digit_in (radix : Z) (c : ascii) : option Z :=
  let n := Z.of_nat (nat_of_ascii c) in
  let d :=
    if andb (48 <=? n)%Z (n <=? 57)%Z then Some (n - 48)%Z
    else if andb (97 <=? n)%Z (n <=? 122)%Z then Some (n - 87)%Z
    else if andb (65 <=? n)%Z (n <=? 90)%Z then Some (n - 55)%Z
    else None in
  match d with
  | Some v => if (v <? radix)%Z then Some v else None
  | None => None
  end.

(** The number denoted by the longest prefix of digits; [acc] is [None]
    until a first digit has been read. *)
Fixpoint digits_prefix (radix : Z) (acc : option Z) (s : string) : option Z :=
  match s with
  | EmptyString => acc
  | String c rest =>
      match digit_in radix c with
      | Some d =>
          let a := match acc with Some a => a | None => 0%Z end in
          digits_prefix radix (Some (radix * a + d)%Z) rest
      | None => acc
      end
  end.

(** The double nearest to the natural number [n], ties to even, with the
    sign given: [n] itself below 2^53, an infinity from 2^1024 on. *)
Definition nearest_double (negative : bool) (n : Z) : value :=
  if (n =? 0)%Z then (if negative then VNegZero else VNum 0)
  else
    let e := (Z.log2 n - 52)%Z in
    let rounded :=
      if (e <=? 0)%Z then n
      else
        let q := Z.shiftr n e in
        let r := Z.land n (Z.ones e) in
        let half := Z.shiftl 1 (e - 1) in
        let q' := if orb (half <? r)%Z (andb (r =? half)%Z (Z.odd q)) then (q + 1)%Z else q in
        Z.shiftl q' e in
    if (Z.shiftl 1 1024 <=? rounded)%Z then VInfinity negative
    else VNum (if negative then (- rounded)%Z else rounded).

(** [parseInt(x)] without a radix: leading white space and a sign are
    skipped, [0x] selects radix 16, the longest prefix of digits is read,
    and the result is [NaN] when there is none, as for [undefined].  The
    number read is returned as the nearest double.  (For a decimal numeral
    of more than 20 digits ECMAScript lets an implementation round the
    digits after the 20th first; this one does not.) *)
Definition parseIntDefaultRadix (x : option string) : value :=
  match x with
  | None => VNaN
  | Some s =>
      let s1 := skip_white_space false s in
      let '(negative, s2) :=
        match s1 with
        | String "-" rest => (true, rest)
        | String "+" rest => (false, rest)
        | _ => (false, s1)
        end in
      let '(radix, s3) :=
        match s2 with
        | String "0" (String "x" rest) => (16%Z, rest)
        | String "0" (String "X" rest) => (16%Z, rest)
        | _ => (10%Z, s2)
        end in
      match digits_prefix radix None s3 with
      | Some n => nearest_double negative n
      | None => VNaN
      end
  end.

(** [toLowerCase] on text whose letters are ASCII letters. *)
Definition lower_ascii (c : ascii) : ascii :=
  let n := nat_of_ascii c in
  if andb (65 <=? n)%nat (n <=? 90)%nat then ascii_of_nat (n + 32) else c.

Fixpoint asciiToLowerCase (s : string) : string :=
  match s with
  | EmptyString => EmptyString
  | String c rest => String (lower_ascii c) (asciiToLowerCase rest)
  end.

(** [fs.watch] on the configuration file: it fails as the read does when
    the file cannot be read at all, and succeeds on a file that is there,
    also when its text does not parse. *)
Definition watchOf (file : file_state) : option (option string) :=
  match file with
  | ReadFails code => Some code
  | ParseFails | Parses _ => None
  end.

(** An installation under [/opt/simulator/dist], off the cloud platform;
    [file] is what reading the configuration file gives. *)
Definition envWith (file : file_state) : Env :=
  {| constants := sampleConstants;
     configurationFile := file;
     watchFailure := watchOf file;
     isCFEnvironment := false;
     env_PORT := None;
     moduleParentDir := "/opt/simulator";
     urlPathname := simpleUrlPathname;
     parseInt := parseIntDefaultRadix;
     toLowerCase := asciiToLowerCase |}.

(** The same installation on the cloud platform, with [PORT] set. *)
Definition cloudEnvWith (file : file_state) (port : string) : Env :=
  {| constants := sampleConstants;
     configurationFile := file;
     watchFailure := watchOf file;
     isCFEnvironment := true;
     env_PORT := Some port;
     moduleParentDir := "/opt/simulator";
     urlPathname := simpleUrlPathname;
     parseInt := parseIntDefaultRadix;
     toLowerCase := asciiToLowerCase |}.

End Sample.

(* ===================================================================== *)
(** ** Notions used in the statements *)
(* ===================================================================== *)

(** The [uiServer] section has the shape [UIServerConfiguration] declares,
    as far as [getUIServer] looks: it is absent, or an object whose
    [options] member is absent or an object. *)
Definition uiServer_typed (doc : props) : bool :=
  match assoc_get "uiServer" doc with
  | None => true
  | Some (VObj section) =>
      match assoc_get "options" section with
      | None | Some (VObj _) => true
      | Some _ => false
      end
  | Some _ => false
  end.

(** A station template entry whose properties can be read: anything but
    [null] and [undefined]. *)
Definition readable (v : value) : bool :=
  match v with
  | VUndefined | VNull => false
  | _ => true
  end.

(** Number of deprecation lines for the top-level key [key]. *)
Fixpoint key_warnings (key : string) (lines : list console_line) : nat :=
  match lines with
  | [] => 0
  | DeprecatedKey k None _ :: rest =>
      (if String.eqb k key then 1 else 0) + key_warnings key rest
  | _ :: rest => key_warnings key rest
  end.

(** The last segment of a path. *)
Definition basename (p : string) : string := last (split_slash p) "".

(** The re-rooting rule read as "only the file name survives": scheme, host
    and directory prefix of the supplied URI are all discarded.  This is the
    reading the code is compared with, not what the code computes. *)
Definition rerooted_without_directories (env : Env) (pathname : string) : string :=
  Configuration.buildPerformanceUriFilePath env (basename pathname).

(** The store after [lines] have been written to the console. *)
Definition add_lines (lines : list console_line) (st : Store) : Store :=
  {| configuration := configuration st;
     configurationFileWatcher := configurationFileWatcher st;
     configurationChangeCallback := configurationChangeCallback st;
     console := (console st ++ lines)%list;
     fsWatchers := fsWatchers st |}.

(** What [warnDeprecatedConfigurationKey] writes for a loaded document. *)
Definition deprecation_lines (doc : props) (key : string) (sectionName : option string)
    (logMsgToAppend : string) : list console_line :=
  let top :=
    if Utils.isUndefined (opt_value (assoc_get key doc)) then []
    else [DeprecatedKey key None logMsgToAppend] in
  match sectionName with
  | None => top
  | Some sec =>
      if String.eqb sec "" then top
      else if Utils.isUndefined (opt_value (assoc_get sec doc)) then top
      else if Utils.isUndefined (get_opt (opt_value (assoc_get sec doc)) key) then top
      else [DeprecatedKey key (Some sec) logMsgToAppend]
  end.

(** The section [warnDeprecatedConfigurationKey] looks into is not [null]. *)
Definition section_readable (doc : props) (sectionName : option string) : bool :=
  match sectionName with
  | None => true
  | Some sec =>
      match assoc_get sec doc with
      | Some VNull => String.eqb sec ""
      | _ => true
      end
  end.

(** At most one subscription, and the static field holds it. *)
Definition watch_inv (st : Store) : Prop :=
  match configurationFileWatcher st with
  | Some _ => fsWatchers st = 1
  | None => fsWatchers st = 0
  end.

(** A computation that keeps [watch_inv]. *)
Definition preserves {A} (m : M A) : Prop :=
  forall env st, watch_inv st -> watch_inv (snd (m env st)).

Import Utils Configuration.

(* --------------------------------------------------------------------- *)
(** *** Further notions *)

(** The document an accessor called in [st] works on: the cached one, or,
    without a cached one, the one the file holds; [None] when there is no
    cached document and the load fails. *)
Definition visible_document (env : Env) (st : Store) : option props :=
  match configuration st with
  | Some doc => Some doc
  | None =>
      match configurationFile env with
      | Parses doc => Some doc
      | _ => None
      end
  end.

(** The member [key] of a document that may be absent, or [dflt]. *)
Definition member_or (d : option props) (key : string) (dflt : value) : value :=
  match d with
  | Some doc =>
      match assoc_get key doc with
      | Some v => v
      | None => dflt
      end
  | None => dflt
  end.

(** The worker configuration read from the legacy top-level keys, each
    with its built-in default. *)
Definition legacyWorkerConfiguration (k : Constants) (doc : props) : props :=
  [("processType",
    member_or (Some doc) "workerProcess" (VStr (WorkerProcessType_workerSet k)));
   ("startDelay",
    member_or (Some doc) "workerStartDelay" (VNum (DEFAULT_WORKER_START_DELAY k)));
   ("elementsPerWorker",
    member_or (Some doc) "chargingStationsPerWorker" (VNum (DEFAULT_ELEMENTS_PER_WORKER k)));
   ("elementStartDelay",
    member_or (Some doc) "elementStartDelay" (VNum (DEFAULT_ELEMENT_START_DELAY k)));
   ("poolMinSize",
    member_or (Some doc) "workerPoolMinSize" (VNum (DEFAULT_POOL_MIN_SIZE k)));
   ("poolMaxSize",
    member_or (Some doc) "workerPoolMaxSize" (VNum (DEFAULT_POOL_MAX_SIZE k)));
   ("poolStrategy",
    nullish_or (opt_value (assoc_get "workerPoolStrategy" doc))
               (VStr (WorkerChoiceStrategies_ROUND_ROBIN k)))].

(** A line of [handleFileException]. *)
Definition is_file_warning (l : console_line) : bool :=
  match l with FileWarning _ => true | _ => false end.

(** One line for each station template entry that has the key
    [numberOfStation], in the order of the entries. *)
Definition numberOfStation_lines (items : list value) : list console_line :=
  flat_map
    (fun t =>
       if isUndefined (get_opt t "numberOfStation") then []
       else [DeprecatedTemplateKey "numberOfStation" (get_opt t "file")])
    items.

(** The document is absent or has no member [key]. *)
Definition lacks_key (d : option props) (key : string) : bool :=
  match d with
  | Some doc =>
      match assoc_get key doc with
      | Some _ => false
      | None => true
      end
  | None => true
  end.

(** The way a failing load is reported; [None] for a file that parses. *)
Definition load_failure_class (f : file_state) : option file_error_class :=
  match f with
  | ReadFails code => Some (classify code)
  | ParseFails => Some OtherFileError
  | Parses _ => None
  end.

(** A computation that leaves the registered callback alone and does not
    drop a cached document. *)
Definition steady {A} (m : M A) : Prop :=
  forall env st,
    configurationChangeCallback (snd (m env st)) = configurationChangeCallback st /\
    (configuration st <> None -> configuration (snd (m env st)) <> None).

(** The base name of [configurationFile], which is
    [path.join(..., 'assets', 'config.json')]. *)
Definition configurationFileName : string := "config.json".

(** The [filename] argument [fs.watch] passes to the listener of a watcher
    on that one file: the base name of the file, or none on a platform
    that gives none. *)
Definition delivered (filename : option string) : bool :=
  match filename with
  | Some f => String.eqb f configurationFileName
  | None => true
  end.

(** An event with a filename that is not the empty string. *)
Definition non_empty (filename : option string) : bool :=
  match filename with
  | Some f => negb (String.eqb f "")
  | None => false
  end.

(** The callback registered last in a trace, [cb] when there is none. *)
Fixpoint registered (trace : list (Env * action)) (cb : option callback)
    : option callback :=
  match trace with
  | [] => cb
  | (_, Register cb') :: rest => registered rest (Some cb')
  | _ :: rest => registered rest cb
  end.

(** The members of [merge(target, extender)] for an object [target]. *)
Definition merged (target : props) (extender : value) : props :=
  fold_left (fun acc k => assoc_set k (get_opt extender k) acc)
    (assigned_keys extender) target.

(** A callback whose code registers no callback. *)
Inductive registers_nothing : callback -> Prop :=
| quiet_Throws (e : exn) : registers_nothing (Throws e)
| quiet_Settles (s : settled) : registers_nothing (Settles s)
| quiet_Awaits (rest : callback) : registers_nothing rest -> registers_nothing (Awaits rest)
| quiet_Calls (a : accessor) (k : result value -> callback) :
    (forall r, registers_nothing (k r)) -> registers_nothing (Calls a k).

Definition quiet_callback (cb : option callback) : Prop :=
  match cb with
  | Some code => registers_nothing code
  | None => True
  end.

(** A run in which no callback registers a callback: neither those given
    to [setConfigurationChangeCallback] nor those that take a later turn. *)
Definition quiet_action (act : action) : Prop :=
  match act with
  | Register cb | Resume cb => registers_nothing cb
  | Call _ | FileEvent _ _ => True
  end.

Fixpoint quiet (trace : list (Env * action)) : Prop :=
  match trace with
  | [] => True
  | (_, act) :: rest => quiet_action act /\ quiet rest
  end.

(** A thrown [TypeError]. *)
Definition is_type_error (e : exn) : Prop := exists msg, e = TypeError msg.

(** A computation that throws nothing but [TypeError]s. *)
Definition type_errors_only {A} (m : M A) : Prop :=
  forall env st e, fst (m env st) = Throw e -> is_type_error e.

(* ===================================================================== *)
(** ** Basic facts about property lists, spread and merge *)
(* ===================================================================== *)

Lemma assoc_get_set (k k' : string) (v : value) (o : props) :
  assoc_get k (assoc_set k' v o) = if String.eqb k k' then Some v else assoc_get k o.
Proof.
  induction o as [|[a x] rest IH]; simpl.
  - reflexivity.
  - destruct (String.eqb_spec k' a) as [->|Hne]; simpl.
    + destruct (String.eqb k a); reflexivity.
    + rewrite IH.
      destruct (String.eqb_spec k k') as [->|Hkk'].
      * destruct (String.eqb_spec k' a); [contradiction | reflexivity].
      * reflexivity.
Qed.

Lemma assoc_get_del_same (k : string) (o : props) : assoc_get k (assoc_del k o) = None.
Proof.
  induction o as [|[a x] rest IH]; simpl; [reflexivity|].
  destruct (String.eqb k a) eqn:E; simpl; [exact IH|].
  rewrite E. exact IH.
Qed.

Lemma assoc_get_fold_set (f : string -> value) (ks : list string) :
  forall (t : props) (k : string),
    assoc_get k (fold_left (fun acc k' => assoc_set k' (f k') acc) ks t)
    = if existsb (String.eqb k) ks then Some (f k) else assoc_get k t.
Proof.
  induction ks as [|a ks IH]; intros t k; simpl.
  - reflexivity.
  - rewrite IH, assoc_get_set.
    destruct (existsb (String.eqb k) ks); simpl.
    + rewrite orb_true_r. reflexivity.
    + rewrite orb_false_r.
      destruct (String.eqb_spec k a) as [->|_]; reflexivity.
Qed.

(** A key of the spread object comes from the source when the source has
    it, and from the target otherwise. *)
Lemma assoc_get_spread (t : props) (src : value) (k : string) :
  assoc_get k (spread t src)
  = if existsb (String.eqb k) (own_keys src) then Some (get_opt src k)
    else assoc_get k t.
Proof. unfold spread. apply assoc_get_fold_set. Qed.

Lemma own_key_of_object (o : props) (k : string) :
  existsb (String.eqb k) (map fst o)
  = match assoc_get k o with Some _ => true | None => false end.
Proof.
  induction o as [|[a x] rest IH]; simpl; [reflexivity|].
  destruct (String.eqb k a); simpl; [reflexivity | exact IH].
Qed.

Lemma merge_fold_object (src : value) (ks : list string) :
  forall t : props,
    fold_left
      (fun acc key =>
         match acc with
         | Ok result => set_prop result key (get_opt src key)
         | Throw e => Throw e
         end) ks (Ok (VObj t))
    = Ok (VObj (fold_left (fun acc k => assoc_set k (get_opt src k) acc) ks t)).
Proof.
  induction ks as [|a ks IH]; intros t; simpl; [reflexivity | apply IH].
Qed.

(** On an object target, [merge] assigns the extender's members one level
    deep. *)
Lemma merge_object (t : props) (extender : value) :
  merge_argument_ok extender = true ->
  merge (VObj t) extender = Ok (VObj (merged t extender)).
Proof.
  intros Hok. unfold merge. rewrite Hok. simpl. apply merge_fold_object.
Qed.

Lemma existsb_filter_other (k avoided : string) (ks : list string) :
  String.eqb k avoided = false ->
  existsb (String.eqb k) (filter (fun key => negb (String.eqb key avoided)) ks)
  = existsb (String.eqb k) ks.
Proof.
  intros Hk. induction ks as [|a ks IH]; simpl; [reflexivity|].
  destruct (String.eqb_spec a avoided) as [->|Ha]; simpl.
  - rewrite Hk. exact IH.
  - rewrite IH. reflexivity.
Qed.

(** A member of the merged object, other than [__proto__], comes from the
    extender when the extender has it, and from the target otherwise. *)
Lemma assoc_get_merged (t : props) (extender : value) (k : string) :
  String.eqb k "__proto__" = false ->
  assoc_get k (merged t extender)
  = if existsb (String.eqb k) (own_keys extender) then Some (get_opt extender k)
    else assoc_get k t.
Proof.
  intros Hk. unfold merged, assigned_keys.
  rewrite assoc_get_fold_set, existsb_filter_other by exact Hk. reflexivity.
Qed.

(** The merged object has no member [__proto__] unless the target has. *)
Lemma merged_keeps_proto (t : props) (extender : value) :
  assoc_get "__proto__" (merged t extender) = assoc_get "__proto__" t.
Proof.
  unfold merged, assigned_keys. rewrite assoc_get_fold_set.
  assert (Hnone : forall (avoided : string) (ks : list string),
            existsb (String.eqb avoided)
              (filter (fun key => negb (String.eqb key avoided)) ks) = false).
  { intros avoided ks. induction ks as [|a ks IH]; [reflexivity|].
    cbn [filter]. destruct (String.eqb_spec a avoided) as [->|Ha]; cbn [negb]; [exact IH|].
    cbn [existsb]. rewrite IH, orb_false_r.
    destruct (String.eqb_spec avoided a) as [<-|_]; [contradiction | reflexivity]. }
  rewrite Hnone. reflexivity.
Qed.

(* ===================================================================== *)
(** ** Facts about the computations *)
(* ===================================================================== *)

(** With a cached document, [getConfig] returns it and changes nothing. *)
Lemma getConfig_cached (env : Env) (st : Store) (doc : props) :
  configuration st = Some doc ->
  getConfig env st = (Ok (VObj doc), st).
Proof.
  intros H. unfold getConfig, bind, gets. rewrite H. reflexivity.
Qed.

Lemma bind_ok {A B} (m : M A) (k : A -> M B) env st a st' :
  m env st = (Ok a, st') -> bind m k env st = k a env st'.
Proof. intros H. unfold bind. rewrite H. reflexivity. Qed.

Lemma bind_throw {A B} (m : M A) (k : A -> M B) env st e st' :
  m env st = (Throw e, st') -> bind m k env st = (Throw e, st').
Proof. intros H. unfold bind. rewrite H. reflexivity. Qed.

(* ===================================================================== *)
(** ** Worker pool predicates *)
(* ===================================================================== *)

(** C10: whenever [workerDynamicPoolInUse()] returns [true],
    [workerPoolInUse()], called in the same state and environment, returns
    [true] as well (both test the [processType] of the same [getWorker()]
    result); and the dynamic-pool predicate is strictly stronger: with a
    static pool configured, the pool is in use and is not dynamic. *)
Theorem C10_dynamic_pool_implies_pool_in_use :
  (forall (env : Env) (st st' : Store),
      workerDynamicPoolInUse env st = (Ok (VBool true), st') ->
      workerPoolInUse env st = (Ok (VBool true), st'))
  /\
  (exists (env : Env) (st : Store),
      fst (workerPoolInUse env st) = Ok (VBool true) /\
      fst (workerDynamicPoolInUse env st) = Ok (VBool false)).
Proof.
  split.
  - intros env st st'.
    unfold workerDynamicPoolInUse, workerPoolInUse, bind.
    destruct (getWorker env st) as [[w|e] s1]; [|trivial].
    unfold lift. destruct (get_prop w "processType") as [pt|e]; [|trivial].
    unfold asks, ret. intros H. inversion H as [[Hdyn Hst]].
    simpl. rewrite Hdyn. reflexivity.
  - exists (Sample.envWith
              (Parses [("worker", VObj [("processType", VStr "staticPool")])])), initial.
    split; vm_compute; reflexivity.
Qed.

Lemma C10_witness :
  let env := Sample.envWith (Parses [("worker", VObj [("processType", VStr "dynamicPool")])]) in
  exists st',
    workerDynamicPoolInUse env initial = (Ok (VBool true), st') /\
    workerPoolInUse env initial = (Ok (VBool true), st').
Proof.
  eexists. split.
  - vm_compute. reflexivity.
  - apply (proj1 C10_dynamic_pool_implies_pool_in_use). vm_compute. reflexivity.
Defined.

(* ===================================================================== *)
(** ** Logging accessors *)
(* ===================================================================== *)

(** What the two accessors compute on a loaded document: both are guarded
    by the presence of [logMaxFiles]. *)
Lemma getLogMaxFiles_cached (env : Env) (st : Store) (doc : props) :
  configuration st = Some doc ->
  getLogMaxFiles env st
  = (Ok (match assoc_get "logMaxFiles" doc with
         | Some v => v
         | None => VBool false
         end), st).
Proof.
  intros H. unfold getLogMaxFiles.
  rewrite (bind_ok _ _ _ _ _ _ (getConfig_cached env st doc H)).
  unfold hasOwnProp.
  destruct (assoc_get "logMaxFiles" doc) as [v|] eqn:E.
  - rewrite (bind_ok _ _ _ _ _ _ (getConfig_cached env st doc H)).
    unfold ret, get_opt, get_prop. rewrite E. reflexivity.
  - reflexivity.
Qed.

Lemma getLogMaxSize_cached (env : Env) (st : Store) (doc : props) :
  configuration st = Some doc ->
  getLogMaxSize env st
  = (Ok (match assoc_get "logMaxFiles" doc with
         | Some _ => opt_value (assoc_get "logMaxSize" doc)
         | None => VBool false
         end), st).
Proof.
  intros H. unfold getLogMaxSize.
  rewrite (bind_ok _ _ _ _ _ _ (getConfig_cached env st doc H)).
  unfold hasOwnProp.
  destruct (assoc_get "logMaxFiles" doc) as [v|] eqn:E.
  - rewrite (bind_ok _ _ _ _ _ _ (getConfig_cached env st doc H)).
    reflexivity.
  - reflexivity.
Qed.

(** C8 (what the code does): [getLogMaxSize] is decided by the key
    [logMaxFiles], not by its own key.  With only [logMaxSize] in the
    document it returns [false] instead of the configured size; with only
    [logMaxFiles] it returns [undefined]; it returns the configured size
    only when [logMaxFiles] is present too. *)
Theorem C8_getLogMaxSize_follows_logMaxFiles :
  fst (getLogMaxSize (Sample.envWith (Parses [("logMaxSize", VNum 10485760)])) initial)
    = Ok (VBool false)
  /\
  fst (getLogMaxSize (Sample.envWith (Parses [("logMaxFiles", VNum 7)])) initial)
    = Ok VUndefined
  /\
  fst (getLogMaxSize
         (Sample.envWith (Parses [("logMaxFiles", VNum 7); ("logMaxSize", VNum 10485760)]))
         initial)
    = Ok (VNum 10485760)
  /\
  fst (getLogMaxFiles (Sample.envWith (Parses [("logMaxFiles", VNum 7)])) initial)
    = Ok (VNum 7).
Proof. repeat split; vm_compute; reflexivity. Qed.

(* ===================================================================== *)
(** ** Stepping through a computation *)
(* ===================================================================== *)

Lemma bind_bind {A B C} (m : M A) (f : A -> M B) (g : B -> M C) env st :
  bind (bind m f) g env st = bind m (fun x => bind (f x) g) env st.
Proof. unfold bind. destruct (m env st) as [[a|e] s]; reflexivity. Qed.

Lemma get_opt_object (o : props) (k : string) :
  get_opt (VObj o) k = opt_value (assoc_get k o).
Proof. reflexivity. Qed.

Lemma assoc_get_set_same (k : string) (v : value) (o : props) :
  assoc_get k (assoc_set k v o) = Some v.
Proof. rewrite assoc_get_set, String.eqb_refl. reflexivity. Qed.

Lemma assoc_get_set_other (k k' : string) (v : value) (o : props) :
  String.eqb k k' = false ->
  assoc_get k (assoc_set k' v o) = assoc_get k o.
Proof. intros H. rewrite assoc_get_set, H. reflexivity. Qed.

Lemma key_warnings_app (key : string) (l1 l2 : list console_line) :
  key_warnings key (l1 ++ l2) = key_warnings key l1 + key_warnings key l2.
Proof.
  induction l1 as [|x l1 IH]; simpl; [reflexivity|].
  destruct x as [s|k [sec|] msg|k f|c]; try exact IH.
  rewrite IH. lia.
Qed.

(** Lookups in literal property lists are evaluated in place. *)
Ltac eval_get :=
  repeat match goal with
  | |- context [assoc_get ?k (?x :: ?l)] =>
      let t := constr:(assoc_get k (x :: l)) in
      let t' := eval cbn [assoc_get String.eqb Ascii.eqb Bool.eqb] in t in
      progress change t with t'
  end.

Ltac record_simpl :=
  cbv beta;
  cbn [configuration configurationFileWatcher configurationChangeCallback console
       fsWatchers fst snd].

(** One statement of a computation whose outcome is known by evaluation. *)
Ltac step := rewrite ?bind_bind; erewrite bind_ok by reflexivity; record_simpl.

(** When [getConfig] yields a document, it is cached from then on, and no
    deprecation line was written on the way. *)
Lemma getConfig_yields (env : Env) (st : Store) (doc : props) :
  fst (getConfig env st) = Ok (VObj doc) ->
  exists st1,
    getConfig env st = (Ok (VObj doc), st1) /\
    configuration st1 = Some doc /\
    (forall key, key_warnings key (console st1) = key_warnings key (console st)).
Proof.
  destruct st as [c w cb con n].
  unfold getConfig, bind, gets, asks, modify, ret; cbn [configuration].
  destruct c as [d|].
  - cbn [fst]. intros H. injection H as ->. eexists.
    split; [reflexivity|]. split; reflexivity.
  - destruct (configurationFile env) as [code| |d];
      unfold handleFileException, console_write, modify, getConfigurationFileWatcher,
             bind, asks, gets, ret, with_configuration;
      cbn [configuration configurationFileWatcher console fst snd].
    1-2: destruct w; [|destruct (watchFailure env)]; cbn; discriminate.
    destruct w as [h|]; [|destruct (watchFailure env) as [code|]]; cbn;
      intros H; injection H as ->; eexists; (split; [reflexivity|]);
      (split; [reflexivity|]); intros key; cbn [console];
      rewrite ?key_warnings_app; simpl; lia.
Qed.

(** The first [getConfig()] of an accessor, when it yields [doc]. *)
Ltac load H :=
  let st1 := fresh "st1" in
  let Hload := fresh "Hload" in
  let Hc := fresh "Hc" in
  let Hlog := fresh "Hlog" in
  destruct (getConfig_yields _ _ _ H) as (st1 & Hload & Hc & Hlog);
  rewrite ?bind_bind; erewrite bind_ok by exact Hload;
  destruct st1 as [c1 w1 cb1 con1 n1]; cbn [configuration console] in Hc, Hlog;
  subst c1; record_simpl.

(* ===================================================================== *)
(** ** UI server *)
(* ===================================================================== *)

(** Off the cloud platform, [getUIServer] returns the defaults, or the
    one-level merge of the document's section over them. *)
Lemma getUIServer_plain (env : Env) (st : Store) (doc : props) :
  fst (getConfig env st) = Ok (VObj doc) ->
  isCFEnvironment env = false ->
  fst (getUIServer env st)
  = match assoc_get "uiServer" doc with
    | Some section => merge (defaultUIServer (constants env)) section
    | None => Ok (defaultUIServer (constants env))
    end.
Proof.
  intros H Hcf. unfold getUIServer. load H. unfold hasOwnProp.
  destruct (assoc_get "uiWebSocketServer" doc); (step; step; step);
  (destruct (assoc_get "uiServer" doc) as [u|] eqn:E;
   [ step; rewrite get_opt_object, E; cbn [opt_value];
     destruct (merge (defaultUIServer (constants env)) u) as [ui|e] eqn:Em;
     [ step; step; rewrite Hcf; reflexivity
     | erewrite bind_throw by reflexivity; reflexivity ]
   | step; step; rewrite Hcf; reflexivity ]).
Qed.

(** An [options] object in the document replaces the default [options]
    object as a whole: what is returned under [options] is exactly the
    document's value, whatever members it has or lacks. *)
Lemma getUIServer_takes_options_whole (env : Env) (st : Store) (doc section : props)
    (options : value) :
  fst (getConfig env st) = Ok (VObj doc) ->
  isCFEnvironment env = false ->
  assoc_get "uiServer" doc = Some (VObj section) ->
  assoc_get "options" section = Some options ->
  exists ui, fst (getUIServer env st) = Ok ui /\ get_prop ui "options" = Ok options.
Proof.
  intros H Hcf Hs Ho. rewrite (getUIServer_plain env st doc H Hcf), Hs.
  unfold defaultUIServer. rewrite merge_object by reflexivity.
  eexists. split; [reflexivity|].
  unfold get_prop. rewrite assoc_get_merged by reflexivity. cbn [own_keys].
  rewrite own_key_of_object, Ho, get_opt_object, Ho. reflexivity.
Qed.

(** C1 (what the code does): for the document
    [{ uiServer: { options: { host: "x" } } }], [getUIServer] returns
    [options = { host: "x" }]: the host is the document's, and the default
    port is gone, because [just-merge] assigns the [options] object as a
    whole; the defaults do have a port. *)
Theorem C1_getUIServer_drops_default_port :
  let env :=
    Sample.envWith (Parses [("uiServer", VObj [("options", VObj [("host", VStr "x")])])]) in
  exists (ui : value) (st' : Store),
    getUIServer env initial = (Ok ui, st') /\
    get_prop ui "options" = Ok (VObj [("host", VStr "x")]) /\
    get_opt (get_opt ui "options") "port" = VUndefined /\
    get_opt (get_opt (defaultUIServer (constants env)) "options") "port" = VNum 8080.
Proof.
  eexists _, _. split; [vm_compute; reflexivity|].
  repeat split.
Qed.

(** The sample [parseInt] at a port, at text around a numeral, at a
    numeral a double does not hold, and at text without a numeral. *)
Example parseIntDefaultRadix_values :
  Sample.parseIntDefaultRadix (Some "8443") = VNum 8443 /\
  Sample.parseIntDefaultRadix (Some "  -0x1F;") = VNum (-31) /\
  Sample.parseIntDefaultRadix (Some "9007199254740993") = VNum 9007199254740992 /\
  Sample.parseIntDefaultRadix (Some "-0") = VNegZero /\
  Sample.parseIntDefaultRadix (Some "port") = VNaN /\
  Sample.parseIntDefaultRadix None = VNaN.
Proof. repeat split. Qed.

(** C5, amended: on the cloud platform with [PORT] set, for every document
    whose [uiServer] section is absent or an object with [options] absent
    or an object, [getUIServer] returns a structure whose [options] have no
    [host] and whose [port] is [parseInt(PORT)], whatever host and port the
    document or the defaults gave. *)
Theorem C5_cloud_override (env : Env) (st : Store) (doc : props) (port : string) :
  fst (getConfig env st) = Ok (VObj doc) ->
  uiServer_typed doc = true ->
  isCFEnvironment env = true ->
  env_PORT env = Some port ->
  exists (ui : value) (options : props) (st' : Store),
    getUIServer env st = (Ok ui, st') /\
    get_prop ui "options" = Ok (VObj options) /\
    assoc_get "host" options = None /\
    assoc_get "port" options = Some (parseInt env (Some port)).
Proof.
  intros H Hty Hcf Hport. unfold uiServer_typed in Hty.
  unfold getUIServer. load H. unfold hasOwnProp.
  assert (Hfinal : forall (o : props) p,
            assoc_get "host" (assoc_set "port" p (assoc_del "host" o)) = None /\
            assoc_get "port" (assoc_set "port" p (assoc_del "host" o)) = Some p).
  { intros o p. rewrite assoc_get_set_same, assoc_get_set_other by reflexivity.
    split; [apply assoc_get_del_same | reflexivity]. }
  destruct (assoc_get "uiWebSocketServer" doc); (step; step; step).
  all: destruct (assoc_get "uiServer" doc) as [u|] eqn:E.
  all: try (destruct u as [ | | | | | | | | | section]; try discriminate Hty).
  all: try (step; rewrite get_opt_object, E; cbn [opt_value]; unfold defaultUIServer;
            rewrite merge_object by reflexivity).
  all: step; step; rewrite Hcf.
  all: try unfold defaultUIServer.
  all: unfold get_prop at 1; try rewrite assoc_get_merged by reflexivity; cbn [own_keys];
       try rewrite own_key_of_object, get_opt_object.
  all: try (destruct (assoc_get "options" section) as [[ | | | | | | | | | o]|] eqn:Eo;
            try discriminate Hty).
  all: eval_get; cbn [opt_value].
  all: do 2 step; rewrite Hport; do 3 step.
  all: cbn [config_value]; rewrite get_opt_object, E; cbn [opt_value own_keys andb];
       try (rewrite own_key_of_object, Eo; cbn [andb]).
  all: repeat step.
  all: eexists _, _, _; (split; [reflexivity|]).
  all: unfold get_prop; rewrite assoc_get_set_same; cbn [opt_value].
  all: split; [reflexivity | apply Hfinal].
Qed.

Lemma C5_witness :
  let doc := [("uiServer", VObj [("options", VObj [("host", VStr "0.0.0.0"); ("port", VNum 9000)])])] in
  let env := Sample.cloudEnvWith (Parses doc) "8443" in
  parseInt env (Some "8443") = VNum 8443 /\
  exists (ui : value) (options : props) (st' : Store),
    getUIServer env initial = (Ok ui, st') /\
    get_prop ui "options" = Ok (VObj options) /\
    assoc_get "host" options = None /\
    assoc_get "port" options = Some (parseInt env (Some "8443")).
Proof.
  split; [reflexivity|].
  apply (C5_cloud_override
           (Sample.cloudEnvWith
              (Parses [("uiServer",
                        VObj [("options", VObj [("host", VStr "0.0.0.0"); ("port", VNum 9000)])])])
              "8443")
           initial
           [("uiServer", VObj [("options", VObj [("host", VStr "0.0.0.0"); ("port", VNum 9000)])])]
           "8443");
    reflexivity.
Defined.

(** C5 as stated fails: with [{ uiServer: { options: null } }] on the cloud
    platform and [PORT=8443], [getUIServer] throws a [TypeError] at
    [uiServerConfiguration.options.port = ...] and returns nothing. *)
Lemma C5_counterexample :
  let env := Sample.cloudEnvWith (Parses [("uiServer", VObj [("options", VNull)])]) "8443" in
  fst (getUIServer env initial) = Throw (TypeError "Cannot set properties of null").
Proof. vm_compute. reflexivity. Qed.

(* ===================================================================== *)
(** ** Deprecation warnings *)
(* ===================================================================== *)

Lemma get_prop_readable (v : value) (k : string) :
  readable v = true -> get_prop v k = Ok (get_opt v k).
Proof.
  unfold get_opt. destruct v; try discriminate; intros _;
    destruct (get_prop _ k) eqn:E; try reflexivity; simpl in E.
  all: repeat match type of E with
       | context [match ?x with _ => _ end] => destruct x
       | context [if ?x then _ else _] => destruct x
       end; discriminate.
Qed.

(** On a document that loads, with the section it looks into not [null],
    [warnDeprecatedConfigurationKey] returns normally and writes exactly
    [deprecation_lines]. *)
Lemma warn_runs (env : Env) (st : Store) (doc : props) (key : string)
    (sec : option string) (msg : string) :
  fst (getConfig env st) = Ok (VObj doc) ->
  section_readable doc sec = true ->
  exists st1,
    warnDeprecatedConfigurationKey key sec msg env st
      = (Ok tt, add_lines (deprecation_lines doc key sec msg) st1) /\
    configuration st1 = Some doc /\
    (forall k, key_warnings k (console st1) = key_warnings k (console st)).
Proof.
  intros H Hr.
  destruct (getConfig_yields _ _ _ H) as (st1 & Hload & Hc & Hlog).
  exists st1. split; [|split; assumption].
  pose proof (getConfig_cached env st1 doc Hc) as Hagain.
  assert (Htop : forall s0, getConfig env s0 = (Ok (VObj doc), st1) ->
    (c <- getConfig ;;
     v <- lift (get_prop c key) ;;
     when (negb (isUndefined v)) (console_write (DeprecatedKey key None msg)))%conf env s0
    = (Ok tt,
       add_lines (if isUndefined (opt_value (assoc_get key doc)) then []
                  else [DeprecatedKey key None msg]) st1)).
  { intros s0 Hs0. erewrite bind_ok by exact Hs0. step.
    destruct st1 as [c1 w1 cb1 con1 n1].
    destruct (isUndefined (opt_value (assoc_get key doc))); unfold add_lines; cbn;
      rewrite ?app_nil_r; reflexivity. }
  unfold warnDeprecatedConfigurationKey, deprecation_lines.
  destruct sec as [s|]; [|exact (Htop st Hload)].
  destruct (String.eqb s "") eqn:Es; [exact (Htop st Hload)|].
  erewrite bind_ok by exact Hload. step.
  destruct (isUndefined (opt_value (assoc_get s doc))) eqn:Eu; [exact (Htop st1 Hagain)|].
  erewrite bind_ok by exact Hagain. step.
  assert (Hrd : readable (opt_value (assoc_get s doc)) = true).
  { unfold section_readable in Hr. rewrite Es in Hr.
    destruct (assoc_get s doc) as [[]|]; try reflexivity; discriminate. }
  rewrite (get_prop_readable _ key Hrd). step.
  destruct (isUndefined (get_opt (opt_value (assoc_get s doc)) key));
    [exact (Htop st1 Hagain)|].
  destruct st1; reflexivity.
Qed.

(** A call of [warnDeprecatedConfigurationKey] at the head of the goal, on
    a document that loads ([H]) and whose section is readable ([Hr]). *)
Ltac warn H Hr :=
  match goal with
  | |- context [bind (warnDeprecatedConfigurationKey ?k ?s ?m) _ ?env ?st] =>
      let st1 := fresh "st1" in
      let Hw := fresh "Hw" in
      let Hc := fresh "Hc" in
      let Hlog := fresh "Hlog" in
      destruct (warn_runs env st _ k s m H Hr) as (st1 & Hw & Hc & Hlog);
      erewrite bind_ok by exact Hw;
      destruct st1 as [c1 w1 cb1 con1 n1]; cbn [configuration console] in Hc, Hlog;
      subst c1; unfold add_lines; record_simpl
  end.

(* ===================================================================== *)
(** ** Performance storage *)
(* ===================================================================== *)

Lemma default_json_uri (env : Env) :
  getDefaultPerformanceStorageUri env (StorageType_JSON_FILE (constants env))
  = Ok (buildPerformanceUriFilePath env (DEFAULT_PERFORMANCE_RECORDS_FILENAME (constants env))).
Proof. unfold getDefaultPerformanceStorageUri. rewrite String.eqb_refl. reflexivity. Qed.

(** C3, amended: for every document whose [performanceStorage] section has
    the JSON-file type and a truthy [uri] that [new URL] accepts,
    [getPerformanceStorage] returns a configuration whose [uri] is
    ["file://"] followed by [path.join] of the fixed base directory and the
    whole path component of the supplied URI.  Scheme and host are gone;
    the path component is joined as it is, directories and dot segments
    included. *)
Theorem C3_jsonfile_uri_rerooted (env : Env) (st : Store) (doc section : props)
    (uri : value) (pathname : string) :
  fst (getConfig env st) = Ok (VObj doc) ->
  assoc_get "performanceStorage" doc = Some (VObj section) ->
  assoc_get "type" section = Some (VStr (StorageType_JSON_FILE (constants env))) ->
  assoc_get "uri" section = Some uri ->
  truthy uri = true ->
  urlPathname env uri = Some pathname ->
  exists (storage : props) (st' : Store),
    getPerformanceStorage env st = (Ok (VObj storage), st') /\
    assoc_get "uri" storage
    = Some (VStr ("file://" ++ path_join (moduleParentDir env) pathname)).
Proof.
  intros H Hs Ht Hu Htruthy Hurl.
  unfold getPerformanceStorage.
  assert (Hr : section_readable doc (Some "performanceStorage") = true).
  { unfold section_readable. rewrite Hs. reflexivity. }
  warn H Hr.
  step. rewrite default_json_uri. do 2 step.
  unfold hasOwnProp. rewrite Hs. do 2 step.
  rewrite !get_opt_object, Hs. cbn [opt_value]. rewrite !get_opt_object, Ht.
  cbn [opt_value strict_eq_str]. rewrite String.eqb_refl. step.
  rewrite !get_opt_object, Hs. cbn [opt_value]. rewrite !get_opt_object, Hu.
  cbn [opt_value]. rewrite Htruthy. step.
  rewrite !get_opt_object, Hs. cbn [opt_value]. rewrite !get_opt_object, Hu.
  cbn [opt_value]. rewrite Hurl. step.
  eexists _, _. split; [reflexivity|].
  rewrite assoc_get_spread. reflexivity.
Qed.

Lemma C3_witness :
  let doc :=
    [("performanceStorage",
      VObj [("type", VStr "jsonfile"); ("uri", VStr "file:///anywhere/data.json")])] in
  let env := Sample.envWith (Parses doc) in
  exists (storage : props) (st' : Store),
    getPerformanceStorage env initial = (Ok (VObj storage), st') /\
    assoc_get "uri" storage = Some (VStr "file:///opt/simulator/anywhere/data.json").
Proof.
  apply (C3_jsonfile_uri_rerooted
           (Sample.envWith
              (Parses [("performanceStorage",
                        VObj [("type", VStr "jsonfile");
                              ("uri", VStr "file:///anywhere/data.json")])]))
           initial
           [("performanceStorage",
             VObj [("type", VStr "jsonfile"); ("uri", VStr "file:///anywhere/data.json")])]
           [("type", VStr "jsonfile"); ("uri", VStr "file:///anywhere/data.json")]
           (VStr "file:///anywhere/data.json")
           "/anywhere/data.json");
    reflexivity.
Defined.

(** C3 as stated fails twice.  For [file:///anywhere/data.json] the
    returned [uri] keeps the directory [/anywhere] under the base
    directory, so it is not the URI with the directory prefix discarded;
    and for a supplied [uri] without a scheme, [new URL] throws and no
    storage configuration is returned. *)
Lemma C3_counterexample :
  let env1 :=
    Sample.envWith
      (Parses [("performanceStorage",
                VObj [("type", VStr "jsonfile"); ("uri", VStr "file:///anywhere/data.json")])]) in
  let env2 :=
    Sample.envWith
      (Parses [("performanceStorage",
                VObj [("type", VStr "jsonfile"); ("uri", VStr "data.json")])]) in
  fst (getPerformanceStorage env1 initial)
    = Ok (VObj [("enabled", VBool false);
                ("type", VStr "jsonfile");
                ("uri", VStr "file:///opt/simulator/anywhere/data.json")])
  /\ rerooted_without_directories env1 "/anywhere/data.json"
     = "file:///opt/simulator/data.json"
  /\ "file:///opt/simulator/anywhere/data.json"
     <> rerooted_without_directories env1 "/anywhere/data.json"
  /\ fst (getPerformanceStorage env2 initial) = Throw (TypeError "Invalid URL").
Proof.
  repeat split; try (vm_compute; reflexivity).
  vm_compute. discriminate.
Qed.

(** [path.join] resolves the dot segments of what it joins: a path
    component that starts with enough of them, as [new URL] gives for a URI
    with an opaque path such as [x:../../../etc/passwd], leads out of the
    base directory. *)
Example joined_path_can_leave_the_base_directory :
  path_join "/opt/simulator" "/anywhere/data.json" = "/opt/simulator/anywhere/data.json" /\
  path_join "/opt/simulator" "../../../etc/passwd" = "/etc/passwd".
Proof. split; reflexivity. Qed.

(** C9: for every document whose [performanceStorage] section is an object
    with a [type] other than the JSON-file type and a [uri],
    [getPerformanceStorage] returns that [uri] as it is: the result is the
    one-level merge of the section over the defaults, each member being the
    section's when it has one and the default otherwise. *)
Theorem C9_other_storage_uri_verbatim (env : Env) (st : Store) (doc section : props)
    (uri : value) :
  fst (getConfig env st) = Ok (VObj doc) ->
  assoc_get "performanceStorage" doc = Some (VObj section) ->
  strict_eq_str (opt_value (assoc_get "type" section))
                (StorageType_JSON_FILE (constants env)) = false ->
  assoc_get "uri" section = Some uri ->
  exists (storage : props) (st' : Store),
    getPerformanceStorage env st = (Ok (VObj storage), st') /\
    assoc_get "uri" storage = Some uri /\
    (forall k : string,
        assoc_get k storage
        = match assoc_get k section with
          | Some v => Some v
          | None =>
              assoc_get k
                [("enabled", VBool false);
                 ("type", VStr (StorageType_JSON_FILE (constants env)));
                 ("uri", VStr (buildPerformanceUriFilePath env
                                 (DEFAULT_PERFORMANCE_RECORDS_FILENAME (constants env))))]
          end).
Proof.
  intros H Hs Ht Hu.
  unfold getPerformanceStorage.
  assert (Hr : section_readable doc (Some "performanceStorage") = true).
  { unfold section_readable. rewrite Hs. reflexivity. }
  warn H Hr.
  step. rewrite default_json_uri. do 2 step.
  unfold hasOwnProp. rewrite Hs. do 2 step.
  rewrite !get_opt_object, Hs. cbn [opt_value]. rewrite !get_opt_object, Ht.
  step.
  eexists _, _. split; [reflexivity|].
  assert (Hall : forall k : string,
    assoc_get k
      (spread
         (spread
            (spread []
               (VObj
                  [("enabled", VBool false);
                   ("type", VStr (StorageType_JSON_FILE (constants env)));
                   ("uri", VStr (buildPerformanceUriFilePath env
                                   (DEFAULT_PERFORMANCE_RECORDS_FILENAME (constants env))))]))
            (VObj section)) (VBool false))
    = match assoc_get k section with
      | Some v => Some v
      | None =>
          assoc_get k
            [("enabled", VBool false);
             ("type", VStr (StorageType_JSON_FILE (constants env)));
             ("uri", VStr (buildPerformanceUriFilePath env
                             (DEFAULT_PERFORMANCE_RECORDS_FILENAME (constants env))))]
      end).
  { intros k. rewrite assoc_get_spread. cbn [own_keys existsb].
    rewrite assoc_get_spread. cbn [own_keys]. rewrite own_key_of_object, get_opt_object.
    destruct (assoc_get k section) as [v|]; [reflexivity|].
    rewrite assoc_get_spread. cbn [own_keys].
    rewrite own_key_of_object, get_opt_object.
    destruct (assoc_get k _); reflexivity. }
  split; [|exact Hall].
  rewrite Hall, Hu. reflexivity.
Qed.

Lemma C9_witness :
  let doc :=
    [("performanceStorage",
      VObj [("type", VStr "mongodb"); ("uri", VStr "mongodb://db.example/records")])] in
  let env := Sample.envWith (Parses doc) in
  exists (storage : props) (st' : Store),
    getPerformanceStorage env initial = (Ok (VObj storage), st') /\
    assoc_get "uri" storage = Some (VStr "mongodb://db.example/records") /\
    assoc_get "enabled" storage = Some (VBool false).
Proof.
  destruct (C9_other_storage_uri_verbatim
              (Sample.envWith
                 (Parses [("performanceStorage",
                           VObj [("type", VStr "mongodb");
                                 ("uri", VStr "mongodb://db.example/records")])]))
              initial
              [("performanceStorage",
                VObj [("type", VStr "mongodb"); ("uri", VStr "mongodb://db.example/records")])]
              [("type", VStr "mongodb"); ("uri", VStr "mongodb://db.example/records")]
              (VStr "mongodb://db.example/records")
              eq_refl eq_refl eq_refl eq_refl)
    as (storage & st' & Hrun & Huri & Hall).
  exists storage, st'. split; [exact Hrun|]. split; [exact Huri|].
  rewrite Hall. reflexivity.
Defined.

(* ===================================================================== *)
(** ** Station templates *)
(* ===================================================================== *)

(** Over entries that can be read, the loop returns normally, leaves the
    cached document alone and writes no line about a top-level key. *)
Lemma forEach_numberOfStation (env : Env) (items : list value) :
  forallb readable items = true ->
  forall st, exists st',
    forEach_items numberOfStationWarning items env st = (Ok tt, st') /\
    configuration st' = configuration st /\
    (forall k, key_warnings k (console st') = key_warnings k (console st)).
Proof.
  induction items as [|x items IH]; intros Hr st; simpl.
  - exists st. repeat split.
  - simpl in Hr. apply andb_prop in Hr. destruct Hr as [Hx Hr].
    assert (Hone : exists st1,
               numberOfStationWarning x env st = (Ok tt, st1) /\
               configuration st1 = configuration st /\
               (forall k, key_warnings k (console st1) = key_warnings k (console st))).
    { unfold numberOfStationWarning.
      rewrite (get_prop_readable x "numberOfStation" Hx). step.
      destruct (isUndefined (get_opt x "numberOfStation")); cbn [negb].
      - exists st. repeat split.
      - rewrite (get_prop_readable x "file" Hx). step.
        eexists. split; [reflexivity|]. split; [reflexivity|].
        intros k. cbn [console]. rewrite key_warnings_app. simpl. lia. }
    destruct Hone as (st1 & H1 & Hc1 & Hl1).
    destruct (IH Hr st1) as (st' & H2 & Hc2 & Hl2).
    exists st'. split.
    + erewrite bind_ok by exact H1. exact H2.
    + split; [congruence|]. intros k. rewrite Hl2. apply Hl1.
Qed.

(** C4, amended: for every document whose legacy key [stationTemplateURLs]
    holds an array of readable entries, [getStationTemplateUrls] copies the
    legacy value to the key [stationTemplateUrls] of the cached document,
    whether or not that key was there before, returns the legacy array, and
    writes the deprecation line for the legacy key exactly once.  Only the
    store changes: a computation has no way to write the file, which lives
    in the environment. *)
Theorem C4_legacy_station_templates (env : Env) (st : Store) (doc : props)
    (items : list value) (named : props) :
  fst (getConfig env st) = Ok (VObj doc) ->
  assoc_get "stationTemplateURLs" doc = Some (VArr items named) ->
  forallb readable items = true ->
  exists st' : Store,
    getStationTemplateUrls env st = (Ok (VArr items named), st') /\
    configuration st'
    = Some (assoc_set "stationTemplateUrls" (VArr items named) doc) /\
    key_warnings "stationTemplateURLs" (console st')
    = S (key_warnings "stationTemplateURLs" (console st)).
Proof.
  intros H Hl Hr.
  unfold getStationTemplateUrls.
  warn H (eq_refl : section_readable doc None = true).
  do 2 step. rewrite Hl. cbn [opt_value isUndefined negb].
  do 4 step. rewrite Hl. cbn [opt_value]. do 2 step.
  rewrite assoc_get_set_same. cbn [opt_value forEach].
  match goal with
  | |- context [bind (forEach_items _ _) _ ?env ?st] =>
      destruct (forEach_numberOfStation env items Hr st) as (st2 & Hf & Hc2 & Hl2)
  end.
  erewrite bind_ok by exact Hf.
  cbn [configuration console with_configuration] in Hc2, Hl2.
  erewrite bind_ok by (apply getConfig_cached; exact Hc2).
  eexists. split; [|split].
  - unfold ret. rewrite get_opt_object, assoc_get_set_same. reflexivity.
  - exact Hc2.
  - rewrite Hl2. unfold deprecation_lines. rewrite Hl. cbn [opt_value isUndefined].
    rewrite key_warnings_app, Hlog. simpl. lia.
Qed.

Lemma C4_witness :
  let legacy := VArr [VObj [("file", VStr "a.json"); ("numberOfStation", VNum 2)]] [] in
  let doc := [("stationTemplateURLs", legacy)] in
  let env := Sample.envWith (Parses doc) in
  exists st' : Store,
    getStationTemplateUrls env initial = (Ok legacy, st') /\
    configuration st' = Some [("stationTemplateURLs", legacy); ("stationTemplateUrls", legacy)] /\
    key_warnings "stationTemplateURLs" (console st') = 1.
Proof.
  apply (C4_legacy_station_templates
           (Sample.envWith
              (Parses [("stationTemplateURLs",
                        VArr [VObj [("file", VStr "a.json"); ("numberOfStation", VNum 2)]] [])]))
           initial
           [("stationTemplateURLs",
             VArr [VObj [("file", VStr "a.json"); ("numberOfStation", VNum 2)]] [])]
           [VObj [("file", VStr "a.json"); ("numberOfStation", VNum 2)]]
           []);
    reflexivity.
Defined.

(** C4 as stated fails in its last clause: with both keys in the document
    the legacy value is copied all the same, and overwrites the canonical
    one. *)
Lemma C4_counterexample :
  let legacy := VArr [VObj [("file", VStr "a.json")]] [] in
  let canonical := VArr [VObj [("file", VStr "b.json")]] [] in
  let doc := [("stationTemplateURLs", legacy); ("stationTemplateUrls", canonical)] in
  let env := Sample.envWith (Parses doc) in
  assoc_get "stationTemplateUrls" doc = Some canonical /\
  fst (getStationTemplateUrls env initial) = Ok legacy /\
  configuration (snd (getStationTemplateUrls env initial))
    = Some [("stationTemplateURLs", legacy); ("stationTemplateUrls", legacy)] /\
  legacy <> canonical.
Proof. repeat split. discriminate. Qed.


(** Without either key in a loaded document, [getStationTemplateUrls]
    throws. *)
Lemma getStationTemplateUrls_without_keys (env : Env) (st : Store) (doc : props) :
  fst (getConfig env st) = Ok (VObj doc) ->
  assoc_get "stationTemplateURLs" doc = None ->
  assoc_get "stationTemplateUrls" doc = None ->
  fst (getStationTemplateUrls env st)
  = Throw (TypeError "Cannot read properties (reading 'forEach')").
Proof.
  intros H Hl Hc.
  unfold getStationTemplateUrls.
  warn H (eq_refl : section_readable doc None = true).
  do 2 step. rewrite Hl. cbn [opt_value isUndefined negb].
  do 3 step. rewrite Hc. cbn [opt_value forEach].
  erewrite bind_throw by reflexivity. reflexivity.
Qed.

(** When the load fails and leaves no document, [getConfig()] is [null] and
    [warnDeprecatedConfigurationKey] throws for a top-level key. *)
Lemma warn_throws_without_document (env : Env) (st : Store) (key msg : string) :
  fst (getConfig env st) = Ok VNull ->
  fst (warnDeprecatedConfigurationKey key None msg env st)
  = Throw (TypeError "Cannot read properties of null").
Proof.
  intros H. unfold warnDeprecatedConfigurationKey, bind.
  destruct (getConfig env st) as [[c|e] st1]; cbn [fst] in H; [|discriminate].
  injection H as ->. reflexivity.
Qed.

(** C2 (what the code does): [getStationTemplateUrls] throws a [TypeError]
    on a loaded document without the key [stationTemplateUrls], and, like
    every accessor that starts with [warnDeprecatedConfigurationKey], on a
    document that failed to load; an accessor that only uses
    [Utils.hasOwnProp] and [?.] falls back to its default. *)
Theorem C2_accessors_throw :
  fst (getStationTemplateUrls (Sample.envWith (Parses [])) initial)
    = Throw (TypeError "Cannot read properties (reading 'forEach')")
  /\
  fst (getStationTemplateUrls (Sample.envWith (ReadFails (Some "ENOENT"))) initial)
    = Throw (TypeError "Cannot read properties of null")
  /\
  fst (getWorker (Sample.envWith ParseFails) initial)
    = Throw (TypeError "Cannot read properties of null")
  /\
  fst (getPerformanceStorage (Sample.envWith ParseFails) initial)
    = Throw (TypeError "Cannot read properties of null")
  /\
  fst (getLogMaxFiles (Sample.envWith ParseFails) initial) = Ok (VBool false).
Proof. repeat split; vm_compute; reflexivity. Qed.


(* ===================================================================== *)
(** ** The watcher *)
(* ===================================================================== *)

Lemma preserves_ret {A} (a : A) : preserves (ret a).
Proof. intros env st H. exact H. Qed.

Lemma preserves_throw {A} (e : exn) : preserves (@throw A e).
Proof. intros env st H. exact H. Qed.

Lemma preserves_lift {A} (r : result A) : preserves (lift r).
Proof. intros env st H. exact H. Qed.

Lemma preserves_asks {A} (f : Env -> A) : preserves (asks f).
Proof. intros env st H. exact H. Qed.

Lemma preserves_gets {A} (f : Store -> A) : preserves (gets f).
Proof. intros env st H. exact H. Qed.

Lemma preserves_bind {A B} (m : M A) (k : A -> M B) :
  preserves m -> (forall a, preserves (k a)) -> preserves (bind m k).
Proof.
  intros Hm Hk env st H. unfold bind.
  specialize (Hm env st H).
  destruct (m env st) as [[a|e] st1]; simpl in Hm.
  - apply Hk. exact Hm.
  - exact Hm.
Qed.

Lemma preserves_console_write (l : console_line) : preserves (console_write l).
Proof. intros env st H. exact H. Qed.

Lemma preserves_with_configuration (c : option props) :
  preserves (modify (with_configuration c)).
Proof. intros env st H. exact H. Qed.

Lemma preserves_getConfig : preserves getConfig.
Proof.
  intros env [c w cb con n] H. unfold watch_inv in *. cbn in H.
  unfold getConfig, bind, gets, asks, modify, ret; cbn [configuration].
  destruct c as [d|]; [exact H|].
  destruct (configurationFile env) as [code| |d];
    unfold handleFileException, console_write, modify, getConfigurationFileWatcher,
           bind, asks, gets, ret, with_configuration;
    cbn [configuration configurationFileWatcher console fst snd];
    (destruct w as [h|]; [|destruct (watchFailure env) as [code'|]]); cbn; lia.
Qed.

Ltac preserves_tac :=
  repeat first
    [ apply preserves_getConfig
    | apply preserves_ret
    | apply preserves_throw
    | apply preserves_lift
    | apply preserves_asks
    | apply preserves_gets
    | apply preserves_console_write
    | apply preserves_with_configuration
    | apply preserves_bind; [|intros ?]
    | match goal with
      | |- preserves (when ?b _) => destruct b; unfold when
      | |- preserves (if ?b then _ else _) => destruct b
      | |- preserves (match ?x with _ => _ end) => destruct x
      end ].

Lemma preserves_assignConfig target k v : preserves (assignConfig target k v).
Proof. unfold assignConfig. preserves_tac. Qed.

Lemma preserves_warn key sec msg : preserves (warnDeprecatedConfigurationKey key sec msg).
Proof. unfold warnDeprecatedConfigurationKey. preserves_tac. Qed.

Lemma preserves_forEach_items (f : value -> M unit) (items : list value) :
  (forall x, preserves (f x)) -> preserves (forEach_items f items).
Proof.
  intros Hf. induction items as [|x items IH]; simpl.
  - apply preserves_ret.
  - apply preserves_bind; [apply Hf | intros _; exact IH].
Qed.

Lemma preserves_numberOfStationWarning x : preserves (numberOfStationWarning x).
Proof. unfold numberOfStationWarning. preserves_tac. Qed.

Lemma preserves_forEach v :
  preserves (forEach v numberOfStationWarning).
Proof.
  destruct v; simpl; try apply preserves_throw.
  apply preserves_forEach_items, preserves_numberOfStationWarning.
Qed.

Lemma preserves_configured key dflt : preserves (configured key dflt).
Proof. unfold configured. preserves_tac. Qed.

Ltac accessor_tac :=
  repeat first
    [ apply preserves_warn
    | apply preserves_assignConfig
    | apply preserves_forEach
    | apply preserves_configured
    | progress preserves_tac ].

Lemma preserves_getUIServer : preserves getUIServer.
Proof. unfold getUIServer. accessor_tac. Qed.

Lemma preserves_getPerformanceStorage : preserves getPerformanceStorage.
Proof. unfold getPerformanceStorage. accessor_tac. Qed.

Lemma preserves_getStationTemplateUrls : preserves getStationTemplateUrls.
Proof. unfold getStationTemplateUrls. accessor_tac. Qed.

Lemma preserves_getWorker : preserves getWorker.
Proof. unfold getWorker. accessor_tac. Qed.

Lemma preserves_run_accessor (a : accessor) : preserves (run_accessor a).
Proof.
  destruct a; simpl;
    try apply preserves_getUIServer;
    try apply preserves_getPerformanceStorage;
    try apply preserves_getStationTemplateUrls;
    try apply preserves_getWorker.
  all: try (first [ unfold workerPoolInUse | unfold workerDynamicPoolInUse ];
            apply preserves_bind; [apply preserves_getWorker|]; intros w; preserves_tac).
  all: unfold getLogStatisticsInterval, getAutoReconnectMaxRetries, getLogConsole,
         getLogFormat, getLogRotate, getLogMaxFiles, getLogMaxSize, getLogLevel,
         getLogFile, getLogErrorFile, getSupervisionUrls, getSupervisionUrlDistribution;
       accessor_tac.
Qed.

Lemma invoke_inv (cb : callback) (env : Env) :
  forall st, watch_inv st -> watch_inv (snd (invoke cb env st)).
Proof.
  induction cb as [e|s|rest _|a k IH|cb' _ rest IH]; intros st H; cbn [invoke snd].
  - exact H.
  - exact H.
  - exact H.
  - pose proof (preserves_run_accessor a env st H) as Ha.
    destruct (run_accessor a env st) as [r st1]. apply IH. exact Ha.
  - apply IH. exact H.
Qed.

Lemma watchListener_inv (event : string) (filename : option string) (env : Env)
    (st : Store) :
  watch_inv st -> watch_inv (snd (watchListener event filename env st)).
Proof.
  intros H. unfold watchListener.
  destruct (filename_given filename && (event =? "change"))%bool; [|exact H].
  cbn [configurationChangeCallback with_configuration].
  destruct (configurationChangeCallback st) as [cb|]; [|exact H].
  pose proof (invoke_inv cb env (with_configuration None st) H) as Hi.
  destruct (invoke cb env (with_configuration None st)) as [[p|e] st1]; exact Hi.
Qed.

Lemma resumed_inv (rest : callback) (env : Env) (st : Store) :
  watch_inv st -> watch_inv (snd (resumed rest env st)).
Proof.
  intros H. unfold resumed, resume.
  pose proof (invoke_inv rest env st H) as Hi.
  destruct (invoke rest env st) as [[p|e] st1]; exact Hi.
Qed.

Lemma step_inv (env : Env) (act : action) (st : Store) :
  watch_inv st -> watch_inv (step env act st).
Proof.
  intros H. destruct act as [a|cb|event filename|rest]; simpl.
  - apply preserves_run_accessor. exact H.
  - exact H.
  - destruct (configurationFileWatcher st) eqn:E; [|exact H].
    apply watchListener_inv. exact H.
  - apply resumed_inv. exact H.
Qed.

Lemma run_inv (trace : list (Env * action)) :
  forall st, watch_inv st -> watch_inv (run trace st).
Proof.
  induction trace as [|[env act] rest IH]; intros st H; simpl; [exact H|].
  apply IH, step_inv, H.
Qed.

(** C6, amended: in every state the process can reach there is at most one
    watch subscription, and the static field holds it exactly when there is
    one.  A call of [getConfig] never creates a second one while a watcher
    is active, nor when the document is cached; and with no document and no
    watcher it creates the watcher whenever [fs.watch] succeeds, whatever
    reading and parsing the file gave. *)
Theorem C6_single_watcher (trace : list (Env * action)) :
  let st := run trace initial in
  fsWatchers st <= 1 /\
  (configurationFileWatcher st = None <-> fsWatchers st = 0) /\
  (forall env : Env,
      let st' := snd (getConfig env st) in
      (configurationFileWatcher st <> None ->
         fsWatchers st' = fsWatchers st /\
         configurationFileWatcher st' = configurationFileWatcher st) /\
      (configuration st <> None -> fsWatchers st' = fsWatchers st) /\
      (configuration st = None -> configurationFileWatcher st = None ->
         watchFailure env = None ->
         fsWatchers st' = 1 /\ configurationFileWatcher st' <> None)).
Proof.
  intros st.
  assert (Hinv : watch_inv st) by (apply run_inv; reflexivity).
  clearbody st. destruct st as [c w cb con n].
  unfold watch_inv in Hinv. cbn in Hinv. cbn [configurationFileWatcher fsWatchers configuration].
  split; [destruct w; lia|].
  split; [destruct w; split; intros; try discriminate; try lia; reflexivity|].
  intros env.
  unfold getConfig, bind, gets, asks, modify, ret; cbn [configuration].
  destruct c as [d|].
  - cbn. repeat split; intros; try reflexivity; congruence.
  - destruct (configurationFile env) as [code| |d];
      unfold handleFileException, console_write, modify, getConfigurationFileWatcher,
             bind, asks, gets, ret, with_configuration;
      cbn [configuration configurationFileWatcher console fst snd];
      (destruct w as [h|]; [|destruct (watchFailure env) as [code'|]]); cbn;
      repeat split; intros; try reflexivity; try congruence; try lia.
Qed.

(** C6 as stated fails: after a load that failed (the file does not parse)
    the document is absent, and the watcher has been created. *)
Lemma C6_counterexample :
  let env := Sample.envWith ParseFails in
  let st := run [(env, Call GetLogMaxFiles)] initial in
  configuration st = None /\
  console st = [FileWarning OtherFileError] /\
  configurationFileWatcher st = Some 0 /\
  fsWatchers st = 1.
Proof. repeat split. Qed.

(* ===================================================================== *)
(** ** The watch listener *)
(* ===================================================================== *)

(** What a [change] event with a name the guard accepts does, whatever
    the callback: the cached document is set to absent first, and a
    registered callback is called in that state; what the call leaves
    behind decides how the turn ends. *)
Lemma watchListener_change (env : Env) (st : Store) (filename : option string) :
  filename_given filename = true ->
  watchListener "change" filename env st
  = match configurationChangeCallback st with
    | None => (Completed, with_configuration None st)
    | Some cb =>
        match invoke cb env (with_configuration None st) with
        | (Ok p, st') => (chain p, st')
        | (Throw e, st') => (Threw e, st')
        end
    end.
Proof.
  intros Hf. unfold watchListener. rewrite Hf. reflexivity.
Qed.

(** The name [fs.watch] delivers for the configuration file passes the
    guard of the listener. *)
Lemma delivered_filename_given (filename : option string) :
  delivered filename = true ->
  non_empty filename = true ->
  filename_given filename = true.
Proof.
  destruct filename as [f|]; cbn [delivered non_empty]; [|discriminate].
  intros Hd _. apply String.eqb_eq in Hd. subst f. reflexivity.
Qed.

(** C7: on a [change] event with a non-empty filename, as [fs.watch]
    delivers it for the configuration file, the listener first sets the
    cached document to absent, and the callback, when one is registered,
    is called in that invalidated state.  A promise rejected with a raw
    string is re-thrown as an [Error] carrying that string, in the turn of
    the event or in a later turn of the callback; any other rejection is
    re-thrown as it is.  (An exception out of the call itself is not a
    rejection: it leaves the listener as it is.) *)
Theorem C7_invalidate_then_callback (env : Env) (st : Store) (event : string)
    (filename : option string) :
  delivered filename = true ->
  non_empty filename = true ->
  event = "change" ->
  let invalidated := with_configuration None st in
  configuration invalidated = None /\
  match configurationChangeCallback st with
  | None => watchListener event filename env st = (Completed, invalidated)
  | Some cb =>
      snd (watchListener event filename env st) = snd (invoke cb env invalidated) /\
      (fst (invoke cb env invalidated) = Ok (Settled Resolved) ->
         fst (watchListener event filename env st) = Completed) /\
      (forall s : string,
         fst (invoke cb env invalidated) = Ok (Settled (Rejected (Raw (VStr s)))) ->
         fst (watchListener event filename env st) = Rethrown (Error s)) /\
      (forall e : exn,
         fst (invoke cb env invalidated) = Ok (Settled (Rejected e)) ->
         (forall s : string, e <> Raw (VStr s)) ->
         fst (watchListener event filename env st) = Rethrown e) /\
      (forall e : exn,
         fst (invoke cb env invalidated) = Throw e ->
         fst (watchListener event filename env st) = Threw e) /\
      (forall rest : callback,
         fst (invoke cb env invalidated) = Ok (Pending rest) ->
         fst (watchListener event filename env st) = Waiting rest /\
         forall (later : Env) (st1 : Store) (s : string),
           fst (resume rest later st1) = Settled (Rejected (Raw (VStr s))) ->
           fst (resumed rest later st1) = Rethrown (Error s))
  end.
Proof.
  intros Hd Hn -> invalidated. split; [reflexivity|].
  rewrite (watchListener_change env st filename (delivered_filename_given filename Hd Hn)).
  fold invalidated.
  destruct (configurationChangeCallback st) as [cb|]; [|reflexivity].
  destruct (invoke cb env invalidated) as [[p|thrown] st1]; cbn [fst snd].
  - split; [reflexivity|].
    split; [intros [= ->]; reflexivity|].
    split; [intros s [= ->]; reflexivity|].
    split.
    { intros e [= ->] Hraw. destruct e as [n m|[]]; try reflexivity.
      exfalso. eapply Hraw. reflexivity. }
    split; [discriminate|].
    intros rest [= ->]. split; [reflexivity|].
    intros later st2 s Hs. unfold resumed.
    destruct (resume rest later st2) as [p st3]. cbn [fst] in *. subst p. reflexivity.
  - split; [reflexivity|].
    split; [discriminate|].
    split; [discriminate|].
    split; [discriminate|].
    split; [intros e [= ->]; reflexivity | discriminate].
Qed.

Lemma C7_witness :
  let cb := Calls GetLogMaxFiles
              (fun _ => Settles (Rejected (Raw (VStr "reload failed")))) in
  let before := Sample.envWith (Parses [("logMaxFiles", VNum 3)]) in
  let after := Sample.envWith (Parses [("logMaxFiles", VNum 5)]) in
  let st := run [(before, Call GetLogMaxFiles); (before, Register cb)] initial in
  configuration st = Some [("logMaxFiles", VNum 3)] /\
  configuration (snd (watchListener "change" (Some "config.json") after st))
    = Some [("logMaxFiles", VNum 5)] /\
  fst (watchListener "change" (Some "config.json") after st)
    = Rethrown (Error "reload failed").
Proof.
  intros cb before after st.
  pose proof (C7_invalidate_then_callback after st "change" (Some "config.json")
                eq_refl eq_refl eq_refl) as [_ Hcb].
  change (configurationChangeCallback st) with (Some cb) in Hcb.
  destruct Hcb as (Hst & _ & Hstr & _).
  split; [reflexivity|]. split.
  - rewrite Hst. reflexivity.
  - apply Hstr. reflexivity.
Defined.

(** A callback that waits before it fails: the turn of the event ends with
    the callback waiting, and the later turn re-throws the wrapped error. *)
Example waiting_callback_rejects_later :
  let rest := Calls GetLogMaxFiles (fun _ => Throws (Raw (VStr "reload failed"))) in
  let env := Sample.envWith (Parses [("logMaxFiles", VNum 3)]) in
  let st := run [(env, Call GetLogMaxFiles); (env, Register (Awaits rest))] initial in
  fst (watchListener "change" (Some "config.json") env st) = Waiting rest /\
  configuration (snd (watchListener "change" (Some "config.json") env st)) = None /\
  fst (resumed rest env (snd (watchListener "change" (Some "config.json") env st)))
    = Rethrown (Error "reload failed").
Proof. repeat split. Qed.

(** [trim] removes the white space of ECMAScript at both ends, that of
    several bytes too: here a space, U+00A0, the name, U+2003 and a line
    feed. *)
Example trim_removes_white_space :
  let nbsp := String (ascii_of_nat 194) (String (ascii_of_nat 160) "") in
  let em_space :=
    String (ascii_of_nat 226) (String (ascii_of_nat 128) (String (ascii_of_nat 131) "")) in
  let line_feed := String (ascii_of_nat 10) "" in
  trim (" " ++ nbsp ++ "config.json" ++ em_space ++ line_feed) = "config.json" /\
  trim (nbsp ++ em_space) = "" /\
  trim "a b" = "a b".
Proof. repeat split. Qed.

(** The guard is [filename?.trim().length > 0]: a name of white space only
    would be ignored, as an event without a name is. *)
Example blank_filename_is_ignored :
  let env := Sample.envWith (Parses [("logMaxFiles", VNum 3)]) in
  let st := run [(env, Call GetLogMaxFiles)] initial in
  configuration (run [(env, FileEvent "change" (Some " "))] st)
    = Some [("logMaxFiles", VNum 3)] /\
  configuration (run [(env, FileEvent "change" None)] st)
    = Some [("logMaxFiles", VNum 3)] /\
  configuration (run [(env, FileEvent "change" (Some "config.json"))] st) = None.
Proof. repeat split. Qed.

(* ===================================================================== *)
(** ** Further properties of the accessors and of the process *)
(* ===================================================================== *)

(** [getConfig] returns the visible document, and that stays the visible
    document afterwards. *)
Lemma getConfig_visible (env : Env) (st : Store) :
  exists st1,
    getConfig env st = (Ok (config_value (visible_document env st)), st1) /\
    visible_document env st1 = visible_document env st /\
    (visible_document env st = None -> configuration st1 = None).
Proof.
  destruct st as [c w cb con n]. unfold visible_document.
  unfold getConfig, bind, gets, asks, modify, ret; cbn [configuration].
  destruct c as [d|].
  - eexists. split; [reflexivity|]. split; [reflexivity|]. discriminate.
  - destruct (configurationFile env) as [code| |d] eqn:Ef;
      unfold handleFileException, console_write, modify, getConfigurationFileWatcher,
             bind, asks, gets, ret, with_configuration;
      cbn [configuration configurationFileWatcher console fst snd];
      (destruct w as [h|]; [|destruct (watchFailure env) as [code'|]]); cbn;
      eexists; (split; [reflexivity|]); cbn; rewrite ?Ef; split; try reflexivity;
      try discriminate.
Qed.

Lemma visible_some_yields (env : Env) (st : Store) (doc : props) :
  visible_document env st = Some doc -> fst (getConfig env st) = Ok (VObj doc).
Proof.
  intros H. destruct (getConfig_visible env st) as (st1 & Hg & _).
  rewrite Hg, H. reflexivity.
Qed.

Lemma configured_value (key : string) (dflt : value) (env : Env) (st : Store) :
  fst (configured key dflt env st)
  = Ok (member_or (visible_document env st) key dflt).
Proof.
  unfold configured.
  destruct (visible_document env st) as [doc|] eqn:Ev.
  - pose proof (visible_some_yields env st doc Ev) as H. load H.
    unfold hasOwnProp, member_or.
    destruct (assoc_get key doc) as [v|] eqn:E.
    + step. unfold ret. rewrite get_opt_object, E. reflexivity.
    + reflexivity.
  - destruct (getConfig_visible env st) as (st1 & Hg & _). rewrite Ev in Hg.
    erewrite bind_ok by exact Hg. reflexivity.
Qed.

(** X1: [getLogFormat], [getLogRotate] and [getLogFile] never throw,
    whatever the store and the file: each returns the document's member
    when the key is present (also when its value is [null]) and its
    built-in default when the key or the whole document is absent. *)
Theorem plain_accessors_never_throw (env : Env) (st : Store) :
  fst (getLogFormat env st)
    = Ok (member_or (visible_document env st) "logFormat" (VStr "simple")) /\
  fst (getLogRotate env st)
    = Ok (member_or (visible_document env st) "logRotate" (VBool true)) /\
  fst (getLogFile env st)
    = Ok (member_or (visible_document env st) "logFile" (VStr "combined.log")).
Proof.
  repeat split; apply configured_value.
Qed.

(** X2: [getLogLevel] returns ["info"], as written, when the document or
    its key [logLevel] is absent; when the key is present it returns what
    the built-in [toLowerCase] makes of a string value, [undefined] for
    [null], and throws a [TypeError] for any other value, which has no
    [toLowerCase]. *)
Theorem getLogLevel_lower_case (env : Env) (st : Store) :
  match visible_document env st with
  | Some doc =>
      match assoc_get "logLevel" doc with
      | None => fst (getLogLevel env st) = Ok (VStr "info")
      | Some (VStr s) => fst (getLogLevel env st) = Ok (VStr (toLowerCase env s))
      | Some VUndefined | Some VNull => fst (getLogLevel env st) = Ok VUndefined
      | Some _ =>
          fst (getLogLevel env st) = Throw (TypeError "toLowerCase is not a function")
      end
  | None => fst (getLogLevel env st) = Ok (VStr "info")
  end.
Proof.
  unfold getLogLevel.
  destruct (visible_document env st) as [doc|] eqn:Ev.
  - pose proof (visible_some_yields env st doc Ev) as H. load H.
    unfold hasOwnProp.
    destruct (assoc_get "logLevel" doc) as [v|] eqn:E.
    + step. rewrite get_opt_object, E. cbn [opt_value].
      destruct v; reflexivity.
    + reflexivity.
  - destruct (getConfig_visible env st) as (st1 & Hg & _). rewrite Ev in Hg.
    erewrite bind_ok by exact Hg. reflexivity.
Qed.

(** X3: on every document that loads, [getSupervisionUrls] returns
    normally: the value of the legacy key [supervisionURLs] when it is
    there, which is then also stored under [supervisionUrls] in the cached
    document, and otherwise the value of [supervisionUrls], [undefined]
    when that is missing too. *)
Theorem getSupervisionUrls_alias (env : Env) (st : Store) (doc : props) :
  visible_document env st = Some doc ->
  let legacy := opt_value (assoc_get "supervisionURLs" doc) in
  exists st' : Store,
    getSupervisionUrls env st
    = (Ok (if isUndefined legacy then opt_value (assoc_get "supervisionUrls" doc)
           else legacy), st') /\
    configuration st'
    = Some (if isUndefined legacy then doc
            else assoc_set "supervisionUrls" legacy doc).
Proof.
  intros Ev legacy. pose proof (visible_some_yields env st doc Ev) as H.
  unfold getSupervisionUrls.
  warn H (eq_refl : section_readable doc None = true).
  do 2 step. fold legacy.
  destruct (isUndefined legacy) eqn:Eu; cbn [negb].
  - repeat step. eexists. split; reflexivity.
  - repeat step. fold legacy.
    eexists. split.
    1: unfold ret; rewrite get_opt_object, assoc_get_set_same; reflexivity.
    reflexivity.
Qed.

Lemma warn_cached (env : Env) (st : Store) (doc : props) (key : string)
    (sec : option string) (msg : string) :
  configuration st = Some doc ->
  section_readable doc sec = true ->
  warnDeprecatedConfigurationKey key sec msg env st
  = (Ok tt, add_lines (deprecation_lines doc key sec msg) st).
Proof.
  intros Hc Hr.
  pose proof (getConfig_cached env st doc Hc) as Hagain.
  assert (Htop :
    (c <- getConfig ;;
     v <- lift (get_prop c key) ;;
     when (negb (isUndefined v)) (console_write (DeprecatedKey key None msg)))%conf env st
    = (Ok tt,
       add_lines (if isUndefined (opt_value (assoc_get key doc)) then []
                  else [DeprecatedKey key None msg]) st)).
  { erewrite bind_ok by exact Hagain. step.
    destruct st as [c1 w1 cb1 con1 n1].
    destruct (isUndefined (opt_value (assoc_get key doc))); unfold add_lines; cbn;
      rewrite ?app_nil_r; reflexivity. }
  unfold warnDeprecatedConfigurationKey, deprecation_lines.
  destruct sec as [s|]; [|exact Htop].
  destruct (String.eqb s "") eqn:Es; [exact Htop|].
  erewrite bind_ok by exact Hagain. step.
  destruct (isUndefined (opt_value (assoc_get s doc))) eqn:Eu; [exact Htop|].
  erewrite bind_ok by exact Hagain. step.
  assert (Hrd : readable (opt_value (assoc_get s doc)) = true).
  { unfold section_readable in Hr. rewrite Es in Hr.
    destruct (assoc_get s doc) as [[]|]; try reflexivity; discriminate. }
  rewrite (get_prop_readable _ key Hrd). step.
  destruct (isUndefined (get_opt (opt_value (assoc_get s doc)) key)); [exact Htop|].
  destruct st; reflexivity.
Qed.

Lemma configured_cached (key : string) (dflt : value) (env : Env) (st : Store)
    (doc : props) :
  configuration st = Some doc ->
  configured key dflt env st = (Ok (member_or (Some doc) key dflt), st).
Proof.
  intros Hc. unfold configured.
  erewrite bind_ok by (apply getConfig_cached; exact Hc).
  unfold hasOwnProp, member_or.
  destruct (assoc_get key doc) as [v|] eqn:E; [|reflexivity].
  erewrite bind_ok by (apply getConfig_cached; exact Hc).
  unfold ret. rewrite get_opt_object, E. reflexivity.
Qed.

(** Statements on a store given as a record with a cached document. *)
Ltac cached_step :=
  rewrite ?bind_bind;
  first
    [ erewrite bind_ok by (apply warn_cached; reflexivity); unfold add_lines
    | erewrite bind_ok by (apply configured_cached; reflexivity)
    | erewrite bind_ok by reflexivity ];
  record_simpl.

(** X4: on every document that loads, each member of [getWorker()] is the
    [worker] section's when the section has it, and otherwise the one read
    from the legacy top-level key, or its built-in default. *)
Theorem getWorker_precedence (env : Env) (st : Store) (doc : props) :
  visible_document env st = Some doc ->
  let section := opt_value (assoc_get "worker" doc) in
  exists (worker : props) (st' : Store),
    getWorker env st = (Ok (VObj worker), st') /\
    forall k : string,
      assoc_get k worker
      = if existsb (String.eqb k) (own_keys section) then Some (get_opt section k)
        else assoc_get k (legacyWorkerConfiguration (constants env) doc).
Proof.
  intros Ev section. pose proof (visible_some_yields env st doc Ev) as H.
  unfold getWorker.
  warn H (eq_refl : section_readable doc None = true).
  do 17 cached_step.
  unfold hasOwnProp. rewrite get_opt_object.
  fold (legacyWorkerConfiguration (constants env) doc).
  assert (Hbase : forall (k : string) (base : props),
            assoc_get k (spread [] (VObj base)) = assoc_get k base).
  { intros k base. rewrite assoc_get_spread. cbn [own_keys].
    rewrite own_key_of_object, get_opt_object.
    destruct (assoc_get k base); reflexivity. }
  subst section.
  destruct (assoc_get "worker" doc) as [w|] eqn:E; cbn [opt_value].
  - cached_step. rewrite get_opt_object, E. cbn [opt_value].
    eexists _, _. split; [reflexivity|].
    intros k. rewrite assoc_get_spread, Hbase. reflexivity.
  - eexists _, _. split; [reflexivity|]. reflexivity.
Qed.

Lemma getWorker_precedence_witness :
  let doc := [("workerProcess", VStr "staticPool");
              ("workerPoolMaxSize", VNum 8);
              ("worker", VObj [("processType", VStr "dynamicPool")])] in
  let env := Sample.envWith (Parses doc) in
  exists (worker : props) (st' : Store),
    getWorker env initial = (Ok (VObj worker), st') /\
    assoc_get "processType" worker = Some (VStr "dynamicPool") /\
    assoc_get "poolMaxSize" worker = Some (VNum 8) /\
    assoc_get "poolMinSize" worker = Some (VNum 4).
Proof.
  intros doc env.
  destruct (getWorker_precedence env initial doc eq_refl) as (worker & st' & Hrun & Hk).
  exists worker, st'. split; [exact Hrun|].
  rewrite !Hk. repeat split.
Defined.




(** X6: on the cloud platform, when the document has [uiServer.options],
    [getUIServer] changes the cached document: [merge] has put the
    document's own [options] object into the result, so the [delete] of
    [host] and the assignment of [port] act on the cache as well. *)
Theorem getUIServer_cloud_changes_cache (env : Env) (st : Store) (doc section o : props)
    (port : string) :
  visible_document env st = Some doc ->
  isCFEnvironment env = true ->
  env_PORT env = Some port ->
  assoc_get "uiServer" doc = Some (VObj section) ->
  assoc_get "options" section = Some (VObj o) ->
  let options' := VObj (assoc_set "port" (parseInt env (Some port)) (assoc_del "host" o)) in
  configuration (snd (getUIServer env st))
  = Some (assoc_set "uiServer" (VObj (assoc_set "options" options' section)) doc).
Proof.
  intros Ev Hcf Hport E Eo options'. pose proof (visible_some_yields env st doc Ev) as H.
  unfold getUIServer. load H. unfold hasOwnProp.
  destruct (assoc_get "uiWebSocketServer" doc); (step; step; step).
  all: rewrite E.
  all: step; rewrite get_opt_object, E; cbn [opt_value]; unfold defaultUIServer;
       rewrite merge_object by reflexivity.
  all: step; step; rewrite Hcf.
  all: unfold get_prop at 1; rewrite assoc_get_merged by reflexivity; cbn [own_keys];
       rewrite own_key_of_object, get_opt_object, Eo; cbn [opt_value].
  all: do 2 step; rewrite Hport; do 3 step.
  all: cbn [config_value]; rewrite get_opt_object, E; cbn [opt_value own_keys andb];
       rewrite own_key_of_object, Eo; cbn [andb].
  all: repeat step.
  all: reflexivity.
Qed.

(** A load that yields a document writes file warnings at most (the one of
    a failed [fs.watch]) and keeps the callback. *)
Lemma getConfig_load (env : Env) (st : Store) (doc : props) :
  visible_document env st = Some doc ->
  exists (st1 : Store) (extra : list console_line),
    getConfig env st = (Ok (VObj doc), st1) /\
    configuration st1 = Some doc /\
    console st1 = (console st ++ extra)%list /\
    forallb is_file_warning extra = true /\
    configurationChangeCallback st1 = configurationChangeCallback st.
Proof.
  destruct st as [c w cb con n]. unfold visible_document.
  unfold getConfig, bind, gets, asks, modify, ret; cbn [configuration].
  destruct c as [d|].
  - intros [= ->]. exists {| configuration := Some doc; configurationFileWatcher := w;
                             configurationChangeCallback := cb; console := con;
                             fsWatchers := n |}, [].
    cbn. rewrite app_nil_r. repeat split.
  - destruct (configurationFile env) as [code| |d]; try discriminate.
    intros [= ->].
    unfold handleFileException, console_write, modify, getConfigurationFileWatcher,
           bind, asks, gets, ret, with_configuration;
      cbn [configuration configurationFileWatcher console fst snd].
    destruct w as [h|]; [|destruct (watchFailure env) as [code'|]]; cbn.
    + eexists _, []. cbn. rewrite app_nil_r. repeat split.
    + eexists _, [_]. cbn. repeat split.
    + eexists _, []. cbn. rewrite app_nil_r. repeat split.
Qed.

Lemma forEach_numberOfStation_lines (env : Env) (items : list value) :
  forallb readable items = true ->
  forall st,
    forEach_items numberOfStationWarning items env st
    = (Ok tt, add_lines (numberOfStation_lines items) st).
Proof.
  induction items as [|x items IH]; intros Hr st.
  - destruct st. unfold add_lines. cbn. rewrite app_nil_r. reflexivity.
  - cbn [forallb] in Hr. apply andb_prop in Hr. destruct Hr as [Hx Hr].
    cbn [forEach_items numberOfStation_lines flat_map].
    fold (numberOfStation_lines items).
    unfold numberOfStationWarning at 1.
    rewrite bind_bind. rewrite (get_prop_readable x "numberOfStation" Hx). step.
    destruct (isUndefined (get_opt x "numberOfStation")); cbn [negb].
    + step. rewrite (IH Hr). reflexivity.
    + rewrite bind_bind. rewrite (get_prop_readable x "file" Hx). step.
      erewrite bind_ok by reflexivity. rewrite (IH Hr).
      destruct st. unfold add_lines. cbn. rewrite <- app_assoc. reflexivity.
Qed.

(** X7: without the legacy key, and when no entry of the array under
    [stationTemplateUrls] is [null] or [undefined], [getStationTemplateUrls]
    returns that array, leaves the cached document as it is, and writes one
    line for each entry that has the key [numberOfStation], in order, after
    the file warnings of the load, if any. *)
Theorem getStationTemplateUrls_warns_per_entry (env : Env) (st : Store) (doc : props)
    (items : list value) (named : props) :
  visible_document env st = Some doc ->
  assoc_get "stationTemplateURLs" doc = None ->
  assoc_get "stationTemplateUrls" doc = Some (VArr items named) ->
  forallb readable items = true ->
  exists (st' : Store) (extra : list console_line),
    getStationTemplateUrls env st = (Ok (VArr items named), st') /\
    configuration st' = Some doc /\
    forallb is_file_warning extra = true /\
    console st' = (console st ++ extra ++ numberOfStation_lines items)%list.
Proof.
  intros Ev Hl Hc Hr.
  destruct (getConfig_load env st doc Ev) as (st1 & extra & Hload & Hc1 & Hcon & Hfw & _).
  unfold getStationTemplateUrls, warnDeprecatedConfigurationKey.
  rewrite !bind_bind. erewrite bind_ok by exact Hload.
  destruct st1 as [c1 w1 cb1 con1 n1]. cbn [configuration console] in Hc1, Hcon. subst c1 con1.
  step. unfold when. rewrite Hl. cbn [opt_value isUndefined negb].
  do 3 step. rewrite Hl. cbn [opt_value isUndefined negb].
  do 3 step. rewrite Hc. cbn [opt_value forEach].
  rewrite (bind_ok _ _ _ _ _ _ (forEach_numberOfStation_lines env items Hr _)).
  unfold add_lines. record_simpl. step.
  eexists _, extra. split; [|split; [|split]].
  - unfold ret. rewrite get_opt_object, Hc. reflexivity.
  - reflexivity.
  - exact Hfw.
  - cbn [console]. rewrite <- app_assoc. reflexivity.
Qed.

(** X8: the legacy keys of [getLogConsole], [getLogErrorFile],
    [getLogStatisticsInterval], [getSupervisionUrlDistribution] and
    [getAutoReconnectMaxRetries] are reported and nothing more: on every
    document that loads, the value returned is the one under the current
    key, or the default, whatever the legacy keys hold. *)
Theorem legacy_keys_warn_only (env : Env) (st : Store) (doc : props) :
  visible_document env st = Some doc ->
  fst (getLogConsole env st)
    = Ok (member_or (Some doc) "logConsole" (VBool false)) /\
  fst (getLogErrorFile env st)
    = Ok (member_or (Some doc) "logErrorFile" (VStr "error.log")) /\
  fst (getLogStatisticsInterval env st)
    = Ok (member_or (Some doc) "logStatisticsInterval"
            (VNum (DEFAULT_LOG_STATISTICS_INTERVAL (constants env)))) /\
  fst (getSupervisionUrlDistribution env st)
    = Ok (member_or (Some doc) "supervisionUrlDistribution"
            (VStr (SupervisionUrlDistribution_ROUND_ROBIN (constants env)))) /\
  fst (getAutoReconnectMaxRetries env st)
    = Ok (member_or (Some doc) "autoReconnectMaxRetries" VUndefined).
Proof.
  intros Ev. pose proof (visible_some_yields env st doc Ev) as H.
  repeat split.
  - unfold getLogConsole. warn H (eq_refl : section_readable doc None = true).
    erewrite configured_cached by reflexivity. reflexivity.
  - unfold getLogErrorFile. warn H (eq_refl : section_readable doc None = true).
    erewrite configured_cached by reflexivity. reflexivity.
  - unfold getLogStatisticsInterval. warn H (eq_refl : section_readable doc None = true).
    cached_step. erewrite configured_cached by reflexivity. reflexivity.
  - unfold getSupervisionUrlDistribution.
    warn H (eq_refl : section_readable doc None = true).
    do 2 cached_step. erewrite configured_cached by reflexivity. reflexivity.
  - unfold getAutoReconnectMaxRetries.
    warn H (eq_refl : section_readable doc None = true).
    do 2 cached_step. erewrite configured_cached by reflexivity. reflexivity.
Qed.

Lemma legacy_keys_warn_only_witness :
  let doc := [("consoleLog", VBool true); ("errorFile", VStr "legacy.log");
              ("statisticsDisplayInterval", VNum 5);
              ("distributeStationsToTenantsEqually", VBool true);
              ("autoReconnectTimeout", VNum 30)] in
  let env := Sample.envWith (Parses doc) in
  fst (getLogConsole env initial) = Ok (VBool false) /\
  fst (getLogErrorFile env initial) = Ok (VStr "error.log") /\
  fst (getLogStatisticsInterval env initial) = Ok (VNum 60) /\
  fst (getSupervisionUrlDistribution env initial) = Ok (VStr "round-robin") /\
  fst (getAutoReconnectMaxRetries env initial) = Ok VUndefined /\
  console (snd (getLogErrorFile env initial))
    = [DeprecatedKey "errorFile" None "Use 'logErrorFile' instead"].
Proof.
  intros doc env.
  destruct (legacy_keys_warn_only env initial doc eq_refl) as (H1 & H2 & H3 & H4 & H5).
  rewrite H1, H2, H3, H4, H5. repeat split.
Defined.

(** X9: off the cloud platform, when the document has no [uiServer] key or
    there is no document at all, [getUIServer] returns the built-in
    configuration: disabled, the WS protocol, the default host and port. *)
Theorem getUIServer_defaults (env : Env) (st : Store) :
  isCFEnvironment env = false ->
  lacks_key (visible_document env st) "uiServer" = true ->
  fst (getUIServer env st)
  = Ok (VObj [("enabled", VBool false);
              ("type", VStr (ApplicationProtocol_WS (constants env)));
              ("options",
               VObj [("host", VStr (DEFAULT_UI_SERVER_HOST (constants env)));
                     ("port", VNum (DEFAULT_UI_SERVER_PORT (constants env)))])]).
Proof.
  intros Hcf Habsent.
  destruct (visible_document env st) as [doc|] eqn:Ev.
  - rewrite (getUIServer_plain env st doc (visible_some_yields env st doc Ev) Hcf).
    cbn [lacks_key] in Habsent.
    destruct (assoc_get "uiServer" doc) as [u|]; [discriminate | reflexivity].
  - unfold getUIServer.
    destruct (getConfig_visible env st) as (st1 & Hg1 & Hv1 & _). rewrite Ev in Hg1, Hv1.
    destruct (getConfig_visible env st1) as (st2 & Hg2 & _). rewrite Hv1 in Hg2.
    cbn [config_value] in Hg1, Hg2.
    erewrite bind_ok by exact Hg1. cbn [hasOwnProp when].
    do 2 (erewrite bind_ok by reflexivity).
    erewrite bind_ok by exact Hg2. cbn [hasOwnProp].
    do 2 (erewrite bind_ok by reflexivity). rewrite Hcf. reflexivity.
Qed.

Lemma getUIServer_defaults_witness :
  fst (getUIServer (Sample.envWith (ReadFails (Some "ENOENT"))) initial)
  = Ok (VObj [("enabled", VBool false);
              ("type", VStr "ws");
              ("options", VObj [("host", VStr "localhost"); ("port", VNum 8080)])]).
Proof.
  apply (getUIServer_defaults (Sample.envWith (ReadFails (Some "ENOENT"))) initial);
    reflexivity.
Defined.

(** X10: a failed load is not remembered: while the document is absent and
    the file keeps failing, each of [n] calls of [getLogFormat] reads the
    file again and writes the warning again, so [n] warnings are added. *)
Theorem failed_load_is_retried (env : Env) (cls : file_error_class) (n : nat) :
  forall st : Store,
    configuration st = None ->
    load_failure_class (configurationFile env) = Some cls ->
    configurationFileWatcher st <> None ->
    let st' := run (repeat (env, Call GetLogFormat) n) st in
    configuration st' = None /\
    console st' = (console st ++ repeat (FileWarning cls) n)%list.
Proof.
  induction n as [|n IH]; intros st Hc Hf Hw; cbn [repeat run].
  - cbn. rewrite app_nil_r. split; [exact Hc | reflexivity].
  - assert (Hstep : step env (Call GetLogFormat) st = add_lines [FileWarning cls] st).
    { destruct st as [c w cb con k]. cbn [configuration configurationFileWatcher] in Hc, Hw.
      subst c. destruct w as [h|]; [|contradiction].
      cbn [step run_accessor]. unfold getLogFormat, configured, getConfig, bind, gets,
        asks, modify, ret. cbn [configuration].
      destruct (configurationFile env) as [code| |d]; cbn in Hf;
        try discriminate; injection Hf as <-; reflexivity. }
    rewrite Hstep.
    destruct (IH (add_lines [FileWarning cls] st)) as [Hc' Hcon'];
      [exact Hc | exact Hf | exact Hw |].
    split; [exact Hc'|].
    rewrite Hcon'. cbn [add_lines console]. rewrite <- app_assoc. reflexivity.
Qed.

Lemma failed_load_is_retried_witness :
  let env := Sample.envWith ParseFails in
  let st := run [(env, Call GetLogFormat)] initial in
  console st = [FileWarning OtherFileError] /\
  configurationFileWatcher st = Some 0%nat /\
  console (run [(env, Call GetLogFormat); (env, Call GetLogFormat); (env, Call GetLogFormat)] st)
  = [FileWarning OtherFileError; FileWarning OtherFileError; FileWarning OtherFileError;
     FileWarning OtherFileError].
Proof.
  intros env st. split; [reflexivity|]. split; [reflexivity|].
  destruct (failed_load_is_retried env OtherFileError 3 st) as [_ Hcon];
    [reflexivity | reflexivity | discriminate |].
  exact Hcon.
Defined.

(** X11: after a [change] event with a filename and no callback
    registered, the next [getConfig] returns what the file holds now and
    caches it, and it does not create a second watcher. *)
Theorem change_event_forces_reload (env : Env) (st : Store) (filename : option string)
    (fresh : props) :
  filename_given filename = true ->
  configurationChangeCallback st = None ->
  configurationFile env = Parses fresh ->
  let st' := snd (watchListener "change" filename env st) in
  fst (getConfig env st') = Ok (VObj fresh) /\
  configuration (snd (getConfig env st')) = Some fresh /\
  (configurationFileWatcher st <> None ->
     fsWatchers (snd (getConfig env st')) = fsWatchers st).
Proof.
  intros Hf Hcb Hfile. unfold watchListener. rewrite Hf. cbn [andb String.eqb Ascii.eqb Bool.eqb].
  cbn [configurationChangeCallback with_configuration]. rewrite Hcb. cbn [snd].
  destruct st as [c w cb con n].
  unfold getConfig, bind, gets, asks, modify, ret, handleFileException, console_write,
         modify, getConfigurationFileWatcher, bind, asks, gets, ret, with_configuration.
  cbv beta. cbn [configuration configurationFileWatcher console fst snd]. rewrite Hfile.
  cbn [configuration configurationFileWatcher console fst snd].
  destruct w as [h|]; [|destruct (watchFailure env) as [code'|]]; cbn;
    repeat split; intros Hw; try reflexivity; contradiction.
Qed.

Lemma change_event_forces_reload_witness :
  let before := Sample.envWith (Parses [("logFormat", VStr "json")]) in
  let after := Sample.envWith (Parses [("logFormat", VStr "simple")]) in
  let st := run [(before, Call GetLogFormat)] initial in
  fst (getLogFormat after st) = Ok (VStr "json") /\
  fst (getConfig after (snd (watchListener "change" (Some "config.json") after st)))
  = Ok (VObj [("logFormat", VStr "simple")]).
Proof.
  intros before after st. split; [reflexivity|].
  apply (change_event_forces_reload after st (Some "config.json")); reflexivity.
Defined.

Lemma steady_ret {A} (a : A) : steady (ret a).
Proof. intros env st. split; [reflexivity | trivial]. Qed.

Lemma steady_throw {A} (e : exn) : steady (@throw A e).
Proof. intros env st. split; [reflexivity | trivial]. Qed.

Lemma steady_lift {A} (r : result A) : steady (lift r).
Proof. intros env st. split; [reflexivity | trivial]. Qed.

Lemma steady_asks {A} (f : Env -> A) : steady (asks f).
Proof. intros env st. split; [reflexivity | trivial]. Qed.

Lemma steady_gets {A} (f : Store -> A) : steady (gets f).
Proof. intros env st. split; [reflexivity | trivial]. Qed.

Lemma steady_bind {A B} (m : M A) (k : A -> M B) :
  steady m -> (forall a, steady (k a)) -> steady (bind m k).
Proof.
  intros Hm Hk env st. unfold bind.
  destruct (Hm env st) as [Hcb Hc].
  destruct (m env st) as [[a|e] st1]; cbn [snd] in *.
  - destruct (Hk a env st1) as [Hcb' Hc']. split; [congruence | auto].
  - split; assumption.
Qed.

Lemma steady_console_write (l : console_line) : steady (console_write l).
Proof. intros env st. split; [reflexivity | trivial]. Qed.

Lemma steady_set_configuration (doc : props) :
  steady (modify (with_configuration (Some doc))).
Proof. intros env st. split; [reflexivity | cbn; discriminate]. Qed.

Lemma steady_getConfig : steady getConfig.
Proof.
  intros env [c w cb con n].
  unfold getConfig, bind, gets, asks, modify, ret; cbn [configuration].
  destruct c as [d|]; [split; [reflexivity | trivial]|].
  destruct (configurationFile env) as [code| |d];
    unfold handleFileException, console_write, modify, getConfigurationFileWatcher,
           bind, asks, gets, ret, with_configuration;
    cbn [configuration configurationFileWatcher console fst snd];
    (destruct w as [h|]; [|destruct (watchFailure env) as [code'|]]); cbn;
    (split; [reflexivity | intros; congruence]).
Qed.

Ltac steady_tac :=
  repeat first
    [ apply steady_getConfig
    | apply steady_ret
    | apply steady_throw
    | apply steady_lift
    | apply steady_asks
    | apply steady_gets
    | apply steady_console_write
    | apply steady_set_configuration
    | apply steady_bind; [|intros ?]
    | match goal with
      | |- steady (when ?b _) => destruct b; unfold when
      | |- steady (if ?b then _ else _) => destruct b
      | |- steady (match ?x with _ => _ end) => destruct x
      end ].

Lemma steady_assignConfig target k v : steady (assignConfig target k v).
Proof. unfold assignConfig. steady_tac. Qed.

Lemma steady_warn key sec msg : steady (warnDeprecatedConfigurationKey key sec msg).
Proof. unfold warnDeprecatedConfigurationKey. steady_tac. Qed.

Lemma steady_forEach v : steady (forEach v numberOfStationWarning).
Proof.
  destruct v; simpl; try apply steady_throw.
  induction items as [|x items IH]; simpl.
  - apply steady_ret.
  - apply steady_bind; [|intros _; exact IH].
    unfold numberOfStationWarning. steady_tac.
Qed.

Lemma steady_configured key dflt : steady (configured key dflt).
Proof. unfold configured. steady_tac. Qed.

Ltac steady_accessor :=
  repeat first
    [ apply steady_warn
    | apply steady_assignConfig
    | apply steady_forEach
    | apply steady_configured
    | progress steady_tac ].

Lemma steady_getWorker : steady getWorker.
Proof. unfold getWorker. steady_accessor. Qed.

Lemma steady_run_accessor (a : accessor) : steady (run_accessor a).
Proof.
  destruct a; cbn [run_accessor];
    try (first [ unfold workerPoolInUse | unfold workerDynamicPoolInUse ];
         apply steady_bind; [apply steady_getWorker|]; intros w; steady_tac);
    try apply steady_getWorker.
  all: unfold getLogStatisticsInterval, getUIServer, getPerformanceStorage,
         getAutoReconnectMaxRetries, getStationTemplateUrls, getLogConsole,
         getLogFormat, getLogRotate, getLogMaxFiles, getLogMaxSize, getLogLevel,
         getLogFile, getLogErrorFile, getSupervisionUrls, getSupervisionUrlDistribution;
       steady_accessor.
Qed.

(** X12: no accessor drops a cached document, whatever it returns or
    throws and whatever the file has become: only the watch listener
    invalidates the cache. *)
Theorem accessors_keep_the_cache (a : accessor) (env : Env) (st : Store) :
  configuration st <> None ->
  configuration (snd (run_accessor a env st)) <> None.
Proof. intros H. apply steady_run_accessor. exact H. Qed.

Lemma invoke_keeps_callback (cb : callback) (env : Env) :
  registers_nothing cb ->
  forall st,
    configurationChangeCallback (snd (invoke cb env st)) = configurationChangeCallback st.
Proof.
  induction 1 as [e|s|rest|a k _ IH]; intros st; cbn [invoke snd]; try reflexivity.
  destruct (steady_run_accessor a env st) as [Hcb _].
  destruct (run_accessor a env st) as [r st1]. cbn [snd] in Hcb.
  rewrite IH. exact Hcb.
Qed.

(** X13: the registered callback changes by [setConfigurationChangeCallback]
    only.  In a run whose callbacks themselves register nothing, the
    registered callback is the one given to the last registration: a later
    registration replaces the earlier one, and no accessor call, no file
    event and no later turn of a callback changes it. *)
Theorem callback_is_last_registered (trace : list (Env * action)) :
  forall st : Store,
    quiet_callback (configurationChangeCallback st) ->
    quiet trace ->
    configurationChangeCallback (run trace st)
    = registered trace (configurationChangeCallback st).
Proof.
  induction trace as [|[env act] rest IH]; intros st Hst Hq; cbn [run registered];
    [reflexivity|].
  cbn [quiet] in Hq. destruct Hq as [Hact Hq].
  assert (Hkeep : match act with
                  | Register cb' =>
                      configurationChangeCallback (step env act st) = Some cb'
                  | _ => configurationChangeCallback (step env act st)
                         = configurationChangeCallback st
                  end).
  { destruct act as [a|cb|event filename|later]; cbn [step].
    - apply steady_run_accessor.
    - reflexivity.
    - destruct (configurationFileWatcher st); [|reflexivity].
      unfold watchListener.
      destruct (filename_given filename && (event =? "change"))%bool; [|reflexivity].
      cbn [configurationChangeCallback with_configuration].
      destruct (configurationChangeCallback st) as [cb|] eqn:Ecb; [|cbn; exact Ecb].
      pose proof (invoke_keeps_callback cb env Hst (with_configuration None st)) as Hi.
      destruct (invoke cb env (with_configuration None st)) as [[p|e] st1];
        cbn [snd] in *; rewrite Hi; exact Ecb.
    - unfold resumed, resume.
      pose proof (invoke_keeps_callback later env Hact st) as Hi.
      destruct (invoke later env st) as [[p|e] st1]; cbn [snd] in *; exact Hi. }
  rewrite IH; [| |exact Hq].
  - destruct act; rewrite Hkeep; reflexivity.
  - destruct act; rewrite Hkeep; try exact Hst. exact Hact.
Qed.

Lemma callback_is_last_registered_witness :
  let first := Calls GetLogFormat (fun _ => Settles Resolved) in
  let second := Awaits (Calls GetWorker (fun _ => Settles Resolved)) in
  let env := Sample.envWith (Parses [("logFormat", VStr "json")]) in
  configurationChangeCallback
    (run [(env, Register first); (env, Call GetLogFormat);
          (env, FileEvent "change" (Some "config.json"));
          (env, Register second);
          (env, FileEvent "change" (Some "config.json"));
          (env, Resume (Calls GetWorker (fun _ => Settles Resolved)))] initial)
  = Some second.
Proof.
  intros first second env.
  apply (callback_is_last_registered
           [(env, Register first); (env, Call GetLogFormat);
            (env, FileEvent "change" (Some "config.json"));
            (env, Register second);
            (env, FileEvent "change" (Some "config.json"));
            (env, Resume (Calls GetWorker (fun _ => Settles Resolved)))] initial).
  - exact I.
  - cbn [quiet quiet_action]. repeat split; repeat constructor.
Defined.

(** A callback that registers another one replaces itself: after the
    event, the registered callback is the one it registered. *)
Example callback_registers_another :
  let next := Settles Resolved in
  let cb := Registers next (Settles Resolved) in
  let env := Sample.envWith (Parses []) in
  let st := run [(env, Call GetLogFormat); (env, Register cb)] initial in
  configurationChangeCallback st = Some cb /\
  configurationChangeCallback (run [(env, FileEvent "change" (Some "config.json"))] st)
  = Some next.
Proof. repeat split. Qed.

Lemma teo_ret {A} (a : A) : type_errors_only (ret a).
Proof. intros env st e H. discriminate. Qed.

Lemma teo_asks {A} (f : Env -> A) : type_errors_only (asks f).
Proof. intros env st e H. discriminate. Qed.

Lemma teo_gets {A} (f : Store -> A) : type_errors_only (gets f).
Proof. intros env st e H. discriminate. Qed.

Lemma teo_modify (f : Store -> Store) : type_errors_only (modify f).
Proof. intros env st e H. discriminate. Qed.

Lemma teo_console_write (l : console_line) : type_errors_only (console_write l).
Proof. intros env st e H. discriminate. Qed.

Lemma teo_throw {A} (msg : string) : type_errors_only (@throw A (TypeError msg)).
Proof. intros env st e [= <-]. exists msg. reflexivity. Qed.

Lemma teo_get_prop (v : value) (k : string) : type_errors_only (lift (get_prop v k)).
Proof.
  intros env st e. unfold lift. cbn [fst].
  destruct v; cbn;
    repeat match goal with
    | |- context [match ?x with _ => _ end] => destruct x
    | |- context [if ?x then _ else _] => destruct x
    end; intros [= <-] || discriminate; eexists; reflexivity.
Qed.

Lemma teo_set_prop (v : value) (k : string) (x : value) :
  type_errors_only (lift (set_prop v k x)).
Proof.
  intros env st e. unfold lift. cbn [fst].
  destruct v; cbn; intros [= <-] || discriminate; eexists; reflexivity.
Qed.

Lemma teo_bind {A B} (m : M A) (k : A -> M B) :
  type_errors_only m -> (forall a, type_errors_only (k a)) -> type_errors_only (bind m k).
Proof.
  intros Hm Hk env st e. unfold bind.
  specialize (Hm env st).
  destruct (m env st) as [[a|e'] st1]; cbn [fst] in *.
  - apply Hk.
  - intros [= <-]. apply Hm. reflexivity.
Qed.

Lemma teo_getConfig : type_errors_only getConfig.
Proof.
  intros env [c w cb con n] e.
  unfold getConfig, bind, gets, asks, modify, ret; cbn [configuration].
  destruct c as [d|]; [discriminate|].
  destruct (configurationFile env) as [code| |d];
    unfold handleFileException, console_write, modify, getConfigurationFileWatcher,
           bind, asks, gets, ret, with_configuration;
    cbn [configuration configurationFileWatcher console fst snd];
    (destruct w as [h|]; [|destruct (watchFailure env) as [code'|]]); cbn; discriminate.
Qed.

Lemma teo_default_uri (env : Env) :
  type_errors_only
    (lift (getDefaultPerformanceStorageUri env (StorageType_JSON_FILE (constants env)))).
Proof. rewrite default_json_uri. intros env' st e H. discriminate. Qed.

Ltac teo_tac :=
  repeat first
    [ apply teo_getConfig
    | apply teo_ret
    | apply teo_throw
    | apply teo_get_prop
    | apply teo_set_prop
    | apply teo_default_uri
    | apply teo_asks
    | apply teo_gets
    | apply teo_modify
    | apply teo_console_write
    | apply teo_bind; [|intros ?]
    | match goal with
      | |- type_errors_only (when ?b _) => destruct b; unfold when
      | |- type_errors_only (if ?b then _ else _) => destruct b
      | |- type_errors_only (match ?x with _ => _ end) => destruct x
      end ].

Lemma teo_assignConfig target k v : type_errors_only (assignConfig target k v).
Proof. unfold assignConfig. teo_tac. Qed.

Lemma teo_warn key sec msg : type_errors_only (warnDeprecatedConfigurationKey key sec msg).
Proof. unfold warnDeprecatedConfigurationKey. teo_tac. Qed.

Lemma teo_forEach v : type_errors_only (forEach v numberOfStationWarning).
Proof.
  destruct v; simpl; try apply teo_throw.
  induction items as [|x items IH]; simpl.
  - apply teo_ret.
  - apply teo_bind; [|intros _; exact IH].
    unfold numberOfStationWarning. teo_tac.
Qed.

Lemma teo_configured key dflt : type_errors_only (configured key dflt).
Proof. unfold configured. teo_tac. Qed.

Ltac teo_accessor :=
  repeat first
    [ apply teo_warn
    | apply teo_assignConfig
    | apply teo_forEach
    | apply teo_configured
    | progress teo_tac ].

Lemma teo_getWorker : type_errors_only getWorker.
Proof. unfold getWorker. teo_accessor. Qed.

(** X14: whatever an accessor other than [getUIServer] throws is a
    [TypeError]; in particular [getPerformanceStorage] never raises the
    "URI is mandatory" [Error] of [getDefaultPerformanceStorageUri], which
    it only calls for the JSON-file type. *)
Theorem accessor_exceptions_are_type_errors (a : accessor) (env : Env) (st : Store)
    (e : exn) :
  a <> GetUIServer ->
  fst (run_accessor a env st) = Throw e ->
  exists msg : string, e = TypeError msg.
Proof.
  intros Ha. revert env st e. change (type_errors_only (run_accessor a)).
  destruct a; cbn [run_accessor]; try contradiction;
    try (first [ unfold workerPoolInUse | unfold workerDynamicPoolInUse ];
         apply teo_bind; [apply teo_getWorker|]; intros w; teo_tac);
    try apply teo_getWorker.
  all: unfold getLogStatisticsInterval, getPerformanceStorage,
         getAutoReconnectMaxRetries, getStationTemplateUrls, getLogConsole,
         getLogFormat, getLogRotate, getLogMaxFiles, getLogMaxSize, getLogLevel,
         getLogFile, getLogErrorFile, getSupervisionUrls, getSupervisionUrlDistribution;
       teo_accessor.
Qed.

Lemma accessor_exceptions_are_type_errors_witness :
  let env :=
    Sample.envWith
      (Parses [("performanceStorage", VObj [("type", VStr "jsonfile"); ("uri", VStr "data.json")])]) in
  exists msg : string,
    fst (getPerformanceStorage env initial) = Throw (TypeError msg).
Proof.
  intros env.
  destruct (accessor_exceptions_are_type_errors GetPerformanceStorage env initial
              (TypeError "Invalid URL")) as [msg Hmsg].
  - discriminate.
  - reflexivity.
  - exists msg. rewrite <- Hmsg. reflexivity.
Defined.

Lemma getSupervisionUrls_alias_witness :
  let doc := [("supervisionURLs", VStr "ws://legacy:8010")] in
  let env := Sample.envWith (Parses doc) in
  exists st' : Store,
    getSupervisionUrls env initial = (Ok (VStr "ws://legacy:8010"), st') /\
    configuration st'
    = Some [("supervisionURLs", VStr "ws://legacy:8010");
            ("supervisionUrls", VStr "ws://legacy:8010")].
Proof.
  intros doc env.
  exact (getSupervisionUrls_alias env initial doc eq_refl).
Defined.

Lemma getUIServer_cloud_changes_cache_witness :
  let doc := [("uiServer",
               VObj [("options", VObj [("host", VStr "0.0.0.0"); ("port", VNum 9000)])])] in
  let env := Sample.cloudEnvWith (Parses doc) "8443" in
  configuration (snd (getUIServer env initial))
  = Some [("uiServer", VObj [("options", VObj [("port", VNum 8443)])])].
Proof.
  intros doc env.
  exact (getUIServer_cloud_changes_cache env initial doc
           [("options", VObj [("host", VStr "0.0.0.0"); ("port", VNum 9000)])]
           [("host", VStr "0.0.0.0"); ("port", VNum 9000)]
           "8443" eq_refl eq_refl eq_refl eq_refl eq_refl).
Defined.

Lemma getStationTemplateUrls_warns_per_entry_witness :
  let items := [VObj [("file", VStr "a.json"); ("numberOfStation", VNum 2)];
                VObj [("file", VStr "b.json"); ("numberOfStations", VNum 1)];
                VObj [("file", VStr "c.json"); ("numberOfStation", VNum 0)]] in
  let doc := [("stationTemplateUrls", VArr items [])] in
  let env := Sample.envWith (Parses doc) in
  exists (st' : Store) (extra : list console_line),
    getStationTemplateUrls env initial = (Ok (VArr items []), st') /\
    configuration st' = Some doc /\
    forallb is_file_warning extra = true /\
    console st'
    = (extra ++
       [DeprecatedTemplateKey "numberOfStation" (VStr "a.json");
        DeprecatedTemplateKey "numberOfStation" (VStr "c.json")])%list.
Proof.
  intros items doc env.
  exact (getStationTemplateUrls_warns_per_entry env initial doc items []
           eq_refl eq_refl eq_refl eq_refl).
Defined.

Lemma accessors_keep_the_cache_witness :
  let doc := [("stationTemplateURLs", VArr [] [])] in
  let env := Sample.envWith (Parses doc) in
  let broken := Sample.envWith ParseFails in
  let st := run [(env, Call GetLogFormat)] initial in
  configuration st = Some doc /\
  configuration (snd (run_accessor GetStationTemplateUrls broken st)) <> None.
Proof.
  intros doc env broken st. split; [reflexivity|].
  apply accessors_keep_the_cache. discriminate.
Defined.
